(** * c2s-train: the training experiment orchestrator

    A shallow embedding of [scripts/c2s-train.py] and the properties of
    its cell registry, partition selector, trainer call and experiment
    store.

    Python integers are [Z], Python floats are primitive floats, a
    dictionary is a [gmap] with string keys, a list is a [list].  A
    Python exception is a value of [exn]; code that may raise returns a
    [result]. *)

From Stdlib Require Import ZArith Ascii String.
From Stdlib Require Import Floats.PrimFloat.
From stdpp Require Import base option list sorting gmap strings.

Local Open Scope Z_scope.
Local Open Scope string_scope.

(** ** Exceptions *)

(** The exceptions a run can end in.  [IndexError] and [KeyError] are
    raised by the script's own subscripts; the other three are the
    kinds its collaborators raise. *)
Inductive exn : Set :=
  | IndexError
  | KeyError
  | InvalidArgument
  | CollaboratorFailure (what : string)
  | IOFailure.

Inductive result (A : Type) : Type :=
  | Ok (a : A)
  | Raise (e : exn).
Arguments Ok {A} a.
Arguments Raise {A} e.

(** How the process ends: with an exit status, or with the traceback
    of an exception nothing caught. *)
Inductive ending : Set :=
  | Exit (status : Z)
  | Traceback (e : exn).

#[global] Instance result_ret : MRet result := @Ok.
#[global] Instance result_fmap : FMap result := λ A B f r,
  match r with
  | Ok a => Ok (f a)
  | Raise e => Raise e
  end.
#[global] Instance result_bind : MBind result := λ A B f r,
  match r with
  | Ok a => f a
  | Raise e => Raise e
  end.

(** ** Recording entries *)

(** One recording entry: a dictionary.  The script reads and writes the
    key ["cell_num"] only, whose value is an integer; the values under
    the other keys (traces, spike trains, sampling rates) are never
    inspected and are stood for by integers as well. *)
Abbreviation entry := (gmap string Z).

(** [entry['cell_num']] *)
Definition getitem (e : entry) (key : string) : result Z :=
  match e !! key with
  | Some v => Ok v
  | None => Raise KeyError
  end.

(** [enumerate(data)], counting from [k]. *)
Fixpoint enumerate_from {A : Type} (k : Z) (l : list A) : list (Z * A) :=
  match l with
  | [] => []
  | x :: l' => (k, x) :: enumerate_from (k + 1) l'
  end.

Definition enumerate {A : Type} (l : list A) : list (Z * A) :=
  enumerate_from 0 l.

(** [range(n)] *)
Definition range (n : nat) : list Z := seqZ 0 (Z.of_nat n).

(** ** numpy.unique *)

(** [numpy.unique] first makes an array of its argument.  For a list
    of Python integers numpy takes the first of these element types
    that holds them all: [int64]; [uint64]; [float64], when negative
    values are mixed with values of [2**63] and more; Python objects,
    when a value is out of the reach of both integer types.  Only
    [float64] changes the values: each becomes the nearest double. *)
Definition is_int64 (z : Z) : bool := bool_decide (- 2 ^ 63 ≤ z < 2 ^ 63).

Definition is_uint64 (z : Z) : bool := bool_decide (0 ≤ z < 2 ^ 64).

(** The double nearest to the integer [z], ties to the even mantissa;
    a double of this size is an integer itself. *)
Definition float64_of (z : Z) : Z :=
  let a := Z.abs z in
  if decide (a < 2 ^ 53) then z
  else
    let e := Z.log2 a - 52 in
    let q := Z.shiftr a e in
    let r := a - Z.shiftl q e in
    let half := 2 ^ (e - 1) in
    let up := bool_decide (half < r) || (bool_decide (r = half) && Z.odd q) in
    Z.sgn z * Z.shiftl (if up then q + 1 else q) e.

(** [numpy.asarray(ar)] for a list of integers. *)
Definition asarray (ar : list Z) : list Z :=
  if forallb is_int64 ar then ar
  else if forallb is_uint64 ar then ar
  else if forallb (λ z, is_int64 z || is_uint64 z) ar then float64_of <$> ar
  else ar.

(** Drop every element equal to its predecessor [prev]. *)
Fixpoint drop_repeats (prev : Z) (l : list Z) : list Z :=
  match l with
  | [] => []
  | x :: l' =>
      if decide (x = prev) then drop_repeats prev l'
      else x :: drop_repeats x l'
  end.

(** [numpy.unique(ar)] on a list: make the array, sort it, then keep
    the elements that differ from the one before them. *)
Definition unique (ar : list Z) : list Z :=
  match merge_sort Z.le (asarray ar) with
  | [] => []
  | x :: l => x :: drop_repeats x l
  end.

(** Cell numbers that numpy keeps as integers: none is negative, or
    none reaches [2**63]. *)
Definition unmixed (nums : list Z) : Prop :=
  Forall (λ z : Z, (0 ≤ z)%Z) nums ∨ Forall (λ z : Z, z < 2 ^ 63) nums.

(** ** Cell registry (lines 76-82) *)

(** The loop [for k, entry in enumerate(data): entry['cell_num'] = k]. *)
Definition assign_cell_nums (data : list entry) : list entry :=
  (λ '(k, e), <["cell_num" := k]> e) <$> enumerate data.

(** Lines 76-79.  Entries are taken to be distinct objects (each loader
    builds one dictionary per trace), so the assignment to one entry
    leaves the others as they are. *)
Definition cell_registry (data : list entry) : result (list entry) :=
  match data !! 0%nat with
  | None => Raise IndexError
  | Some first =>
      if decide (first !! "cell_num" = None)
      then Ok (assign_cell_nums data)
      else Ok data
  end.

(** [[entry['cell_num'] for entry in data]] *)
Definition cell_nums (data : list entry) : result (list Z) :=
  mapM (M := result) (λ e, getitem e "cell_num") data.

(** Line 82. *)
Definition collect_cell_ids (data : list entry) : result (list Z) :=
  unique <$> cell_nums data.

(** ** Command line and trainer arguments *)

(** The namespace [parser.parse_known_args] returns: one field per
    argument declared on lines 27-54. *)
Module Namespace.
Record t : Set := Make {
  dataset : list string;
  output : string;
  num_components : Z;
  num_features : Z;
  num_models : Z;
  keep_all : Z;
  finetune : Z;
  num_train : Z;
  num_valid : Z;
  var_explained : float;
  window_length : float;
  regularize : float;
  preprocess : Z;
  seed : Z;
  verbosity : Z
}.
End Namespace.

(** The arguments of one call of [c2s.train] (lines 91-104): the
    entries, then the keyword arguments in the order they are written. *)
Module TrainArgs.
Record t : Type := Make {
  data : list entry;
  num_valid : Z;
  num_models : Z;
  var_explained : float;
  window_length : float;
  keep_all : Z;
  finetune : Z;
  model_parameters : gmap string Z;
  training_parameters : gmap string Z;
  regularize : float;
  verbosity : Z
}.
End TrainArgs.

(** ** Experiments and the file system *)

(** A value stored in an experiment: lines 106-108 store the parsed
    arguments, the training cells and the trained models; what else
    an experiment may hold is never inspected and is stood for by an
    integer. *)
Inductive xval (model : Type) : Type :=
  | XArgs (args : Namespace.t)
  | XCells (cells : list Z)
  | XModels (models : list model)
  | XOther (handle : Z).
Arguments XArgs {model} args.
Arguments XCells {model} cells.
Arguments XModels {model} models.
Arguments XOther {model} handle.

(** What a path names: a directory, a file holding a saved
    experiment, or a place no file can be written at (a missing
    parent directory, no permission, no space left).  The file system
    is the one the script sees: a map from the path strings it hands
    to [os.path.isdir] and [save] to what each of them names, so a
    directory that goes by two strings is under both. *)
Inductive node (model : Type) : Type :=
  | Dir
  | File (experiment : gmap string (xval model))
  | Unwritable.
Arguments Dir {model}.
Arguments File {model} experiment.
Arguments Unwritable {model}.

Module os.
Module path.

Definition startswith_sep (s : string) : bool :=
  match s with
  | String c _ => bool_decide (c = "/"%char)
  | EmptyString => false
  end.

Fixpoint endswith_sep (s : string) : bool :=
  match s with
  | EmptyString => false
  | String c EmptyString => bool_decide (c = "/"%char)
  | String _ s' => endswith_sep s'
  end.

(** [os.path.join(a, b)] of posixpath. *)
Definition join (a b : string) : string :=
  if startswith_sep b then b
  else if bool_decide (a = "") || endswith_sep a then a +:+ b
  else a +:+ "/" +:+ b.

(** [os.path.isdir(p)] on the file system [disk]. *)
Definition isdir {model : Type} (disk : gmap string (node model)) (p : string) : bool :=
  match disk !! p with
  | Some Dir => true
  | _ => false
  end.

End path.
End os.

(** Whether a file can be written at [p]: not where a directory is,
    and not at a place nothing can be written at. *)
Definition writable {model : Type} (disk : gmap string (node model)) (p : string) : bool :=
  match disk !! p with
  | Some Dir | Some Unwritable => false
  | Some (File _) | None => true
  end.

(** ** The world of a run *)

(** The two process-wide random generators: [numpy.random]'s and the
    one behind [cmt.utils]. *)
Record generators (NP CMT : Type) : Type := Generators {
  numpy_random : NP;
  cmt_utils : CMT
}.
Arguments Generators {NP CMT} numpy_random cmt_utils.
Arguments numpy_random {NP CMT} g.
Arguments cmt_utils {NP CMT} g.

(** What a run reads and changes: the generators, the lines printed,
    the file system, and (as a record of the run, not a Python object)
    the argument lists [c2s.train] was called with, oldest first. *)
Record world (NP CMT model : Type) : Type := World {
  rng : generators NP CMT;
  stdout : list string;
  trained : list TrainArgs.t;
  disk : gmap string (node model)
}.
Arguments World {NP CMT model} rng stdout trained disk.
Arguments rng {NP CMT model} w.
Arguments stdout {NP CMT model} w.
Arguments trained {NP CMT model} w.
Arguments disk {NP CMT model} w.

Definition set_rng {NP CMT model : Type}
    (g : generators NP CMT) (w : world NP CMT model) : world NP CMT model :=
  World g (stdout w) (trained w) (disk w).

(** Code that runs in the world and may raise; the world an exception
    leaves behind is the one reached when it was raised. *)
Definition M (NP CMT model : Type) (A : Type) : Type :=
  world NP CMT model → result A * world NP CMT model.

#[global] Instance M_ret {NP CMT model} : MRet (M NP CMT model) := λ A a w, (Ok a, w).
#[global] Instance M_bind {NP CMT model} : MBind (M NP CMT model) := λ A B f m w,
  match m w with
  | (Ok a, w') => f a w'
  | (Raise e, w') => (Raise e, w')
  end.

(** A collaborator sees the generators and nothing else of the world. *)
Definition collaborator (NP CMT : Type) (A : Type) : Type :=
  generators NP CMT → result A * generators NP CMT.

(** The functions the script imports.  [parse_known_args] is the
    parser of lines 25-56 at work on [argv[1:]]: it returns the
    namespace, or ends the process with an exit status (2 after a
    usage error).  [Experiment] is what [Experiment()] of
    [c2s/experiment.py] holds when it is created.
    [numpy.random.seed(s)] and [cmt.utils.seed(s)] replace the state
    of their generator by one that [s] alone determines.  [load_data]
    reads the dataset files, which do not change during a run. *)
Class Collaborators (NP CMT model : Type) : Type := {
  parse_known_args : list string → Z + Namespace.t;
  Experiment : gmap string (xval model);
  numpy_random_seed : Z → NP;
  cmt_utils_seed : Z → CMT;
  random_select : Z → Z → collaborator NP CMT (list Z);
  load_data : string → collaborator NP CMT (list entry);
  preprocess : list entry → Z → collaborator NP CMT (list entry);
  train : TrainArgs.t → collaborator NP CMT (list model)
}.

Section Orchestrator.

Context `{Collaborators NP CMT model}.

Local Abbreviation M := (M NP CMT model).

(** A computation that does not touch the world. *)
Definition lift {A : Type} (r : result A) : M A := λ w, (r, w).

Definition call {A : Type} (c : collaborator NP CMT A) : M A := λ w,
  let '(r, g) := c (rng w) in (r, set_rng g w).

Definition numpy_seed (s : Z) : M unit := λ w,
  (Ok (), set_rng (Generators (numpy_random_seed s) (cmt_utils (rng w))) w).

Definition cmt_seed (s : Z) : M unit := λ w,
  (Ok (), set_rng (Generators (numpy_random (rng w)) (cmt_utils_seed s)) w).

Definition print (line : string) : M unit := λ w,
  (Ok (), World (rng w) (stdout w ++ [line]) (trained w) (disk w)).

(** [c2s.train(...)]: the call is recorded, then the trainer runs. *)
Definition c2s_train (a : TrainArgs.t) : M (list model) := λ w,
  call (train a) (World (rng w) (stdout w) (trained w ++ [a]) (disk w)).

Definition isdir (p : string) : M bool := λ w, (Ok (os.path.isdir (disk w) p), w).

(** Modelled from the spec: [Experiment.save] of [c2s/experiment.py],
    which is not part of the script.  It writes the experiment at
    exactly the path it is given, replacing the file that was there;
    where no file can be written it fails with [IOFailure] and writes
    nothing. *)
Definition save (experiment : gmap string (xval model)) (p : string) : M unit := λ w,
  if writable (disk w) p
  then (Ok (), World (rng w) (stdout w) (trained w) (<[p := File experiment]> (disk w)))
  else (Raise IOFailure, w).

(** *** The script *)

(** Lines 58-61. *)
Definition seed_rng (args : Namespace.t) : M unit :=
  if decide (-1 < Namespace.seed args) then
    _ ← numpy_seed (Namespace.seed args);
    cmt_seed (Namespace.seed args)
  else mret ().

(** Lines 69-71: [data] grows by what each file holds. *)
Fixpoint load_all (filepaths : list string) (data : list entry) : M (list entry) :=
  match filepaths with
  | [] => mret data
  | filepath :: rest =>
      loaded ← call (load_data filepath);
      load_all rest (data ++ loaded)
  end.

(** Lines 69-74. *)
Definition aggregate (args : Namespace.t) : M (list entry) :=
  data ← load_all (Namespace.dataset args) [];
  if decide (Namespace.preprocess args ≠ 0)
  then call (preprocess data (Namespace.verbosity args))
  else mret data.

(** Lines 58-82: [None] stands for the early [return 0] of line 67,
    otherwise the entries and the cell ids are returned. *)
Definition collect (args : Namespace.t) : M (option (list entry * list Z)) :=
  _ ← seed_rng args;
  if decide (Namespace.dataset args = []) then
    _ ← print "You have to specify at least 1 dataset.";
    mret None
  else
    data ← aggregate args;
    data ← lift (cell_registry data);
    cell_ids ← lift (collect_cell_ids data);
    mret (Some (data, cell_ids)).

(** Lines 84-89. *)
Definition pick_training_cells (args : Namespace.t) (cell_ids : list Z) : M (list Z) :=
  if decide (0 < Namespace.num_train args)
  then call (random_select (Namespace.num_train args) (Z.of_nat (length cell_ids)))
  else mret (range (length cell_ids)).

(** [[entry for entry in data if entry['cell_num'] in training_cells]] *)
Fixpoint training_entries (training_cells : list Z) (data : list entry) : result (list entry) :=
  match data with
  | [] => Ok []
  | entry :: rest =>
      c ← getitem entry "cell_num";
      kept ← training_entries training_cells rest;
      Ok (if decide (c ∈ training_cells) then entry :: kept else kept)
  end.

(** The arguments of lines 91-104, [selected] being the entries. *)
Definition train_arguments (args : Namespace.t) (selected : list entry) : TrainArgs.t := {|
  TrainArgs.data := selected;
  TrainArgs.num_valid := Namespace.num_valid args;
  TrainArgs.num_models := Namespace.num_models args;
  TrainArgs.var_explained := Namespace.var_explained args;
  TrainArgs.window_length := Namespace.window_length args;
  TrainArgs.keep_all := Namespace.keep_all args;
  TrainArgs.finetune := Namespace.finetune args;
  TrainArgs.model_parameters :=
    {[ "num_components" := Namespace.num_components args;
       "num_features" := Namespace.num_features args ]};
  TrainArgs.training_parameters := {[ "verbosity" := 1 ]};
  TrainArgs.regularize := Namespace.regularize args;
  TrainArgs.verbosity := Namespace.verbosity args
|}.

(** Lines 91-104. *)
Definition train_models (args : Namespace.t) (data : list entry)
    (training_cells : list Z) : M (list model) :=
  selected ← lift (training_entries training_cells data);
  c2s_train (train_arguments args selected).

(** Lines 63 and 106-108: the experiment that is saved. *)
Definition record_of (args : Namespace.t) (training_cells : list Z)
    (models : list model) : gmap string (xval model) :=
  <["models" := XModels models]>
    (<["training_cells" := XCells training_cells]>
      (<["args" := XArgs args]> Experiment)).

(** Lines 110-113. *)
Definition store (args : Namespace.t)
    (experiment : gmap string (xval model)) : M unit :=
  d ← isdir (Namespace.output args);
  if d : bool
  then save experiment (os.path.join (Namespace.output args) "model.xpck")
  else save experiment (Namespace.output args).

(** [main], with the arguments already parsed. *)
Definition main (args : Namespace.t) : M Z :=
  r ← collect args;
  match r with
  | None => mret 0
  | Some (data, cell_ids) =>
      training_cells ← pick_training_cells args cell_ids;
      models ← train_models args data training_cells;
      _ ← store args (record_of args training_cells models);
      mret 0
  end.

(** Lines 24-56 and 119-120: [sys.exit(main(sys.argv))].  The parser
    may end the process itself; otherwise the process ends with the
    status [main] returns, or with the exception it raises. *)
Definition script (argv : list string) : world NP CMT model → ending * world NP CMT model :=
  λ w,
  match parse_known_args (tail argv) with
  | inl status => (Exit status, w)
  | inr args =>
      match main args w with
      | (Ok status, w') => (Exit status, w')
      | (Raise e, w') => (Traceback e, w')
      end
  end.

(** Lines 58-89 alone: the training cells a run picks, [None] after
    the early return. *)
Definition training_subset (args : Namespace.t) : M (option (list Z)) :=
  r ← collect args;
  match r with
  | None => mret None
  | Some (_, cell_ids) =>
      training_cells ← pick_training_cells args cell_ids;
      mret (Some training_cells)
  end.

(** [m] changes nothing of the world but the generators. *)
Definition only_rng {A : Type} (m : M A) : Prop :=
  ∀ w, ∃ g, (m w).2 = set_rng g w.

(** The generators after lines 58-61. *)
Definition seeded (args : Namespace.t) (g : generators NP CMT) : generators NP CMT :=
  if decide (-1 < Namespace.seed args)
  then Generators (numpy_random_seed (Namespace.seed args))
                  (cmt_utils_seed (Namespace.seed args))
  else g.

(** Where lines 110-113 write. *)
Definition target (args : Namespace.t) (w : world NP CMT model) : string :=
  if os.path.isdir (disk w) (Namespace.output args)
  then os.path.join (Namespace.output args) "model.xpck"
  else Namespace.output args.

End Orchestrator.

(** ** A concrete setting

    Stand-ins for the collaborators, small enough to run the script
    on: generator states are integers, models are integers, and three
    dataset files exist. *)
Module Scenario.

Definition lcg (s : Z) : Z := (1103515245 * s + 12345) mod 2147483648.

(** [k] draws without replacement from [pool]. *)
Fixpoint draw (k : nat) (pool : list Z) (s : Z) : list Z * Z :=
  match k with
  | O => ([], s)
  | S k' =>
      let s' := lcg s in
      let i := Z.to_nat (s' mod Z.of_nat (length pool)) in
      match pool !! i with
      | Some x => let '(xs, s'') := draw k' (delete i pool) s' in (x :: xs, s'')
      | None => ([], s')
      end
  end.

(** Modelled from the spec: [random_select] of [cmt.utils], which is
    not part of the script.  [random_select(k, n)] is [k] distinct
    indices in [[0, n)], drawn without replacement with the generator
    of [cmt.utils]; asking for more indices than there are fails with
    [InvalidArgument] and draws nothing. *)
Definition random_select (k n : Z) : collaborator Z Z (list Z) := λ g,
  if decide (n < k) then (Raise InvalidArgument, g)
  else
    let '(xs, s) := draw (Z.to_nat k) (range (Z.to_nat n)) (cmt_utils g) in
    (Ok xs, Generators (numpy_random g) s).

(** Four traces of two cells that are numbered from one. *)
Definition labelled : list entry :=
  [ {[ "cell_num" := 1; "calcium" := 101 ]};
    {[ "cell_num" := 1; "calcium" := 102 ]};
    {[ "cell_num" := 2; "calcium" := 103 ]};
    {[ "cell_num" := 2; "calcium" := 104 ]} ].

(** Three traces without cell numbers. *)
Definition traces : list entry :=
  [ {[ "calcium" := 201 ]}; {[ "calcium" := 202 ]}; {[ "calcium" := 203 ]} ].

Definition load_data (filepath : string) : collaborator Z Z (list entry) := λ g,
  if decide (filepath = "labelled.pck") then (Ok labelled, g)
  else if decide (filepath = "traces.pck") then (Ok traces, g)
  else if decide (filepath = "empty.pck") then (Ok [], g)
  else (Raise (CollaboratorFailure "load_data"), g).

Definition preprocess (data : list entry) (verbosity : Z) : collaborator Z Z (list entry) :=
  λ g, (Ok data, g).

(** One model per requested model, each fitted from a fresh draw of
    [numpy.random]'s generator. *)
Definition train (a : TrainArgs.t) : collaborator Z Z (list Z) := λ g,
  let s := lcg (numpy_random g) in
  (Ok ((λ m, s + m) <$> seqZ 0 (TrainArgs.num_models a)), Generators s (cmt_utils g)).

(** The defaults of lines 31-54. *)
Definition arguments (dataset : list string) (output : string) : Namespace.t := {|
  Namespace.dataset := dataset;
  Namespace.output := output;
  Namespace.num_components := 3;
  Namespace.num_features := 2;
  Namespace.num_models := 4;
  Namespace.keep_all := 1;
  Namespace.finetune := 0;
  Namespace.num_train := 0;
  Namespace.num_valid := 0;
  Namespace.var_explained := 95%float;
  Namespace.window_length := 1000%float;
  Namespace.regularize := 0%float;
  Namespace.preprocess := 0;
  Namespace.seed := -1;
  Namespace.verbosity := 1
|}.

(** The parser on a command line without options: of the strings
    given, the last is the output and the ones before it are the
    datasets, of which [nargs='+'] wants one at least. *)
Definition parse_known_args (strings : list string) : Z + Namespace.t :=
  match reverse strings with
  | output :: dataset :: datasets =>
      inr (arguments (reverse (dataset :: datasets)) output)
  | _ => inl 2
  end.

#[global] Instance collaborators : Collaborators Z Z Z :=
  Build_Collaborators Z Z Z parse_known_args ∅
    (λ s, s) (λ s, s) random_select load_data preprocess train.

(** [c2s train labelled.pck results] and [c2s train traces.pck results]. *)
Definition on_labelled : Namespace.t := arguments ["labelled.pck"] "results".
Definition on_traces : Namespace.t := arguments ["traces.pck"] "results".

(** [-t n -S s -v v] on top of [a]. *)
Definition options (n s v : Z) (a : Namespace.t) : Namespace.t :=
  Namespace.Make
    (Namespace.dataset a) (Namespace.output a)
    (Namespace.num_components a) (Namespace.num_features a)
    (Namespace.num_models a) (Namespace.keep_all a) (Namespace.finetune a)
    n (Namespace.num_valid a)
    (Namespace.var_explained a) (Namespace.window_length a) (Namespace.regularize a)
    (Namespace.preprocess a) s v.

(** A file system with one directory, and generators in some state. *)
Definition boot : world Z Z Z :=
  World (Generators 2024 11) [] [] {[ "results" := Dir ]}.

End Scenario.

(** ** The specification's reading of the training subset

    The specification has the partition selector return indices into
    the sorted cell ids, and has an entry take part in training when
    its cell is one of the cell ids at these indices. *)

(** [cell_ids[i]] for each index [i] of [training_cells]. *)
Definition selected_cells (cell_ids training_cells : list Z) : list Z :=
  omap (λ i : Z, if decide (0 ≤ i)%Z then cell_ids !! Z.to_nat i else None) training_cells.

Definition in_cells (cells : list Z) (e : entry) : bool :=
  match e !! "cell_num" with
  | Some c => bool_decide (c ∈ cells)
  | None => false
  end.

(** The entries whose ["cell_num"] is one of [cells]. *)
Definition entries_of_cells (cells : list Z) (data : list entry) : list entry :=
  filter (λ e, in_cells cells e) data.

(** The specification's reading of "the configuration is passed
    unchanged": every hyperparameter of the call, the training
    verbosity among them, is the value the caller supplied. *)
Definition configuration_unchanged (args : Namespace.t) (a : TrainArgs.t) : Prop :=
  TrainArgs.num_valid a = Namespace.num_valid args ∧
  TrainArgs.num_models a = Namespace.num_models args ∧
  TrainArgs.var_explained a = Namespace.var_explained args ∧
  TrainArgs.window_length a = Namespace.window_length args ∧
  TrainArgs.keep_all a = Namespace.keep_all args ∧
  TrainArgs.finetune a = Namespace.finetune args ∧
  TrainArgs.model_parameters a !! "num_components" = Some (Namespace.num_components args) ∧
  TrainArgs.model_parameters a !! "num_features" = Some (Namespace.num_features args) ∧
  TrainArgs.regularize a = Namespace.regularize args ∧
  TrainArgs.training_parameters a !! "verbosity" = Some (Namespace.verbosity args) ∧
  TrainArgs.verbosity a = Namespace.verbosity args.

(** * Properties *)

(** ** Lists and [numpy.unique] *)

Lemma enumerate_from_lookup {A : Type} (l : list A) (k : Z) (i : nat) :
  enumerate_from k l !! i = (λ x, (k + Z.of_nat i, x)) <$> l !! i.
Proof.
  revert k i. induction l as [|x l IH]; intros k [|i]; simpl; try done.
  - by rewrite Z.add_0_r.
  - rewrite IH. destruct (l !! i); simpl; [|done].
    do 2 f_equal. lia.
Qed.

Lemma assign_cell_nums_lookup (data : list entry) (i : nat) :
  assign_cell_nums data !! i = (λ e, <["cell_num" := Z.of_nat i]> e) <$> data !! i.
Proof.
  unfold assign_cell_nums, enumerate.
  rewrite list_lookup_fmap, enumerate_from_lookup.
  by destruct (data !! i).
Qed.

Lemma assign_cell_nums_length (data : list entry) :
  length (assign_cell_nums data) = length data.
Proof.
  unfold assign_cell_nums, enumerate. rewrite length_fmap.
  generalize 0. induction data as [|e data IH]; intros k; simpl; [done|].
  by rewrite IH.
Qed.

Lemma elem_of_drop_repeats (prev x : Z) (l : list Z) :
  x ∈ prev :: drop_repeats prev l ↔ x ∈ prev :: l.
Proof.
  revert prev. induction l as [|y l IH]; intros prev; simpl; [done|].
  destruct (decide (y = prev)) as [->|Hne].
  - rewrite IH, !elem_of_cons. tauto.
  - rewrite !elem_of_cons, <-elem_of_cons, IH, !elem_of_cons. tauto.
Qed.

Lemma drop_repeats_sorted (prev : Z) (l : list Z) :
  Sorted Z.le (prev :: l) → Sorted Z.lt (prev :: drop_repeats prev l).
Proof.
  revert prev. induction l as [|y l IH]; intros prev Hs; simpl.
  - repeat constructor.
  - apply Sorted_inv in Hs as [Hs Hhd].
    apply HdRel_inv in Hhd.
    destruct (decide (y = prev)) as [->|Hne].
    + by apply IH.
    + constructor; [by apply IH|]. constructor. lia.
Qed.

Lemma unique_sorted (ar : list Z) : StronglySorted Z.lt (unique ar).
Proof.
  unfold unique.
  pose proof (Sorted_merge_sort Z.le (asarray ar)) as Hs.
  destruct (merge_sort Z.le (asarray ar)) as [|x l]; [constructor|].
  apply Sorted_StronglySorted; [apply _|].
  by apply drop_repeats_sorted.
Qed.

Lemma elem_of_unique (ar : list Z) (x : Z) : x ∈ unique ar ↔ x ∈ asarray ar.
Proof.
  unfold unique.
  rewrite <-(merge_sort_Permutation Z.le (asarray ar)) at 2.
  destruct (merge_sort Z.le (asarray ar)) as [|y l]; [done|].
  apply elem_of_drop_repeats.
Qed.

Lemma forallb_Forall {A : Type} (f : A → bool) (l : list A) :
  forallb f l = true ↔ Forall (λ x, f x = true) l.
Proof.
  induction l as [|x l IH]; simpl.
  - split; [constructor|done].
  - rewrite andb_true_iff, IH, Forall_cons. tauto.
Qed.

Lemma forallb_ext_elem {A : Type} (f : A → bool) (l1 l2 : list A) :
  (∀ x, x ∈ l1 ↔ x ∈ l2) → forallb f l1 = forallb f l2.
Proof.
  intros Hel.
  destruct (forallb f l1) eqn:H1, (forallb f l2) eqn:H2; try done.
  - apply forallb_Forall in H1. rewrite <-H2. symmetry. apply forallb_Forall.
    rewrite Forall_forall in *. intros x Hx. apply H1, Hel, Hx.
  - apply forallb_Forall in H2. rewrite <-H1. apply forallb_Forall.
    rewrite Forall_forall in *. intros x Hx. apply H2, Hel, Hx.
Qed.

(** The array has the elements of the list, converted or not, one
    for one. *)
Lemma length_asarray (ar : list Z) : length (asarray ar) = length ar.
Proof.
  unfold asarray. repeat destruct (forallb _ ar); try done. apply length_fmap.
Qed.

Lemma elem_of_asarray_ext (l1 l2 : list Z) :
  (∀ x, x ∈ l1 ↔ x ∈ l2) → ∀ x, x ∈ asarray l1 ↔ x ∈ asarray l2.
Proof.
  intros Hel x. unfold asarray.
  rewrite (forallb_ext_elem is_int64 l1 l2 Hel).
  rewrite (forallb_ext_elem is_uint64 l1 l2 Hel).
  rewrite (forallb_ext_elem (λ z, is_int64 z || is_uint64 z) l1 l2 Hel).
  repeat destruct (forallb _ l2); try apply Hel.
  rewrite !list_elem_of_fmap. by setoid_rewrite Hel.
Qed.

(** Unmixed cell numbers are not converted. *)
Lemma asarray_unmixed (ar : list Z) : unmixed ar → asarray ar = ar.
Proof.
  intros Hun. unfold asarray.
  destruct (forallb is_int64 ar) eqn:H1; [done|].
  destruct (forallb is_uint64 ar) eqn:H2; [done|].
  destruct (forallb (λ z, is_int64 z || is_uint64 z) ar) eqn:H3; [|done].
  exfalso. apply forallb_Forall in H3. destruct Hun as [Hpos|Hlow].
  - assert (forallb is_uint64 ar = true) as Habs; [|congruence].
    apply forallb_Forall. rewrite Forall_forall in *. intros z Hz.
    specialize (H3 z Hz). specialize (Hpos z Hz). simpl in *.
    apply orb_true_iff in H3 as [H3|H3]; [|done].
    unfold is_int64, is_uint64 in *. apply bool_decide_eq_true in H3.
    apply bool_decide_eq_true. lia.
  - assert (forallb is_int64 ar = true) as Habs; [|congruence].
    apply forallb_Forall. rewrite Forall_forall in *. intros z Hz.
    specialize (H3 z Hz). specialize (Hlow z Hz). simpl in *.
    apply orb_true_iff in H3 as [H3|H3]; [done|].
    unfold is_int64, is_uint64 in *. apply bool_decide_eq_true in H3.
    apply bool_decide_eq_true. lia.
Qed.

Lemma StronglySorted_lt_NoDup (l : list Z) : StronglySorted Z.lt l → NoDup l.
Proof.
  induction 1 as [|x l _ IH Hall]; constructor; [|done].
  intros Hin. rewrite Forall_forall in Hall. specialize (Hall _ Hin). lia.
Qed.

(** A strictly ascending list is determined by its elements. *)
Lemma ascending_unique (l1 l2 : list Z) :
  StronglySorted Z.lt l1 → StronglySorted Z.lt l2 →
  (∀ x, x ∈ l1 ↔ x ∈ l2) → l1 = l2.
Proof.
  intros H1 H2 Hel.
  apply (StronglySorted_unique_strong Z.lt); [intros; lia|done|done|].
  apply NoDup_Permutation; auto using StronglySorted_lt_NoDup.
Qed.

Lemma cell_nums_Ok (data : list entry) (nums : list Z) :
  cell_nums data = Ok nums ↔ Forall2 (λ e c, e !! "cell_num" = Some c) data nums.
Proof.
  unfold cell_nums. revert nums.
  induction data as [|e data IH]; intros nums; simpl.
  - split; [intros [= <-]; constructor|by inversion 1].
  - unfold getitem. destruct (e !! "cell_num") as [c|] eqn:He; simpl.
    + destruct (mapM _ data) as [cs|err] eqn:Hm; simpl.
      * split.
        -- intros [= <-]. constructor; [done|]. by apply IH.
        -- inversion 1 as [|? c' ? cs' Hc Hcs]; simplify_eq.
           apply IH in Hcs. by simplify_eq.
      * split; [done|].
        inversion 1 as [|? c' ? cs' Hc Hcs]; simplify_eq.
        by apply IH in Hcs.
    + split; [done|]. inversion 1; congruence.
Qed.

Lemma elem_of_cell_nums (data : list entry) (nums : list Z) (c : Z) :
  cell_nums data = Ok nums →
  c ∈ nums ↔ ∃ e, e ∈ data ∧ e !! "cell_num" = Some c.
Proof.
  rewrite cell_nums_Ok. induction 1 as [|e c' data nums He _ IH].
  - split; [by rewrite elem_of_nil|].
    intros (e & He & _). by apply elem_of_nil in He.
  - rewrite elem_of_cons, IH. split.
    + intros [->|(e' & ? & ?)]; [exists e|exists e']; by rewrite elem_of_cons; auto.
    + intros (e' & [->|?]%elem_of_cons & He'); [left; congruence|right; eauto].
Qed.

(** ** Cell registry *)

Lemma cell_registry_labelled (first : entry) (rest : list entry) :
  is_Some (first !! "cell_num") → cell_registry (first :: rest) = Ok (first :: rest).
Proof.
  intros [c Hc]. unfold cell_registry. simpl.
  destruct (decide (first !! "cell_num" = None)); [congruence|done].
Qed.

Lemma cell_registry_unlabelled (first : entry) (rest : list entry) :
  first !! "cell_num" = None →
  cell_registry (first :: rest) = Ok (assign_cell_nums (first :: rest)).
Proof.
  intros Hc. unfold cell_registry. simpl.
  destruct (decide (first !! "cell_num" = None)); [done|congruence].
Qed.

(** C3: on a non-empty sequence, the registry looks for ["cell_num"]
    in the first entry only.  If it is there, no entry changes; if it
    is not, entry [k] gets [cell_num = k] whatever it carried before,
    and nothing else of it changes.  Either way a second pass changes
    nothing. *)
Theorem cell_registry_checks_first_entry_only (first : entry) (rest : list entry) :
  let data := first :: rest in
  (is_Some (first !! "cell_num") → cell_registry data = Ok data) ∧
  (first !! "cell_num" = None →
     ∃ labelled,
       cell_registry data = Ok labelled ∧
       length labelled = length data ∧
       ∀ k e, data !! k = Some e →
         labelled !! k = Some (<["cell_num" := Z.of_nat k]> e)) ∧
  (∀ data', cell_registry data = Ok data' → cell_registry data' = Ok data').
Proof.
  intros data. split_and!.
  - apply cell_registry_labelled.
  - intros Hc. exists (assign_cell_nums data). split_and!.
    + by apply cell_registry_unlabelled.
    + apply assign_cell_nums_length.
    + intros k e Hk. by rewrite assign_cell_nums_lookup, Hk.
  - intros data'. subst data.
    destruct (first !! "cell_num") as [c|] eqn:Hc.
    + rewrite cell_registry_labelled by eauto. intros [= <-].
      apply cell_registry_labelled. eauto.
    + rewrite cell_registry_unlabelled by done. intros [= <-].
      unfold assign_cell_nums at 1. simpl.
      apply cell_registry_labelled. rewrite lookup_insert_eq. eauto.
Qed.

(** Once the first entry lacks ["cell_num"], the cell ids are the
    positions [0, ..., len(data) - 1]. *)
Lemma cell_nums_assigned (data : list entry) :
  cell_nums (assign_cell_nums data) = Ok (range (length data)).
Proof.
  apply cell_nums_Ok, Forall2_same_length_lookup. split.
  - unfold range. by rewrite assign_cell_nums_length, length_seqZ, Nat2Z.id.
  - intros i e c. rewrite assign_cell_nums_lookup. unfold range.
    rewrite lookup_seqZ. intros He [-> _].
    destruct (data !! i); simplify_eq/=. by rewrite lookup_insert_eq.
Qed.

Lemma unique_ascending (l : list Z) :
  StronglySorted Z.lt l → unmixed l → unique l = l.
Proof.
  intros Hl Hun. apply ascending_unique; [apply unique_sorted|done|].
  intros x. by rewrite elem_of_unique, asarray_unmixed.
Qed.

Lemma range_sorted (n : nat) : StronglySorted Z.lt (range n).
Proof.
  unfold range. induction n as [|n IH]; [constructor|].
  rewrite seqZ_S. apply StronglySorted_app_2; [|done|repeat constructor].
  intros x y Hx ->%list_elem_of_singleton.
  apply elem_of_seqZ in Hx. lia.
Qed.

Lemma collect_cell_ids_assigned (data : list entry) :
  collect_cell_ids (assign_cell_nums data) = Ok (range (length data)).
Proof.
  unfold collect_cell_ids. rewrite cell_nums_assigned. simpl.
  rewrite unique_ascending; [done|apply range_sorted|].
  left. apply Forall_forall. intros z Hz. unfold range in Hz.
  apply elem_of_seqZ in Hz. lia.
Qed.


(** ** Where indices and cell numbers coincide *)

(** On the cell ids [0, ..., n - 1] an index selects itself. *)
Lemma selected_cells_range (n : nat) (training_cells : list Z) :
  Forall (λ i, 0 ≤ i < Z.of_nat n) training_cells →
  selected_cells (range n) training_cells = training_cells.
Proof.
  unfold selected_cells, range.
  induction 1 as [|i l Hi _ IH]; simpl; [done|].
  destruct (decide (0 ≤ i)%Z); [|lia].
  rewrite lookup_seqZ_lt by lia. simpl. f_equal; [lia|exact IH].
Qed.

Lemma entries_of_cells_all (cells nums : list Z) (data : list entry) :
  cell_nums data = Ok nums → nums ⊆ cells → entries_of_cells cells data = data.
Proof.
  rewrite cell_nums_Ok. unfold entries_of_cells.
  induction 1 as [|e c data nums He _ IH]; intros Hsub; [done|].
  rewrite filter_cons.
  destruct (decide (in_cells cells e)) as [_|Hout].
  - rewrite IH; [done|]. intros x Hx. apply Hsub. by apply elem_of_cons; right.
  - destruct Hout. unfold in_cells. rewrite He.
    apply bool_decide_spec, Hsub. by apply elem_of_cons; left.
Qed.

(** Entries that come without cell numbers get the numbers
    [0, ..., len(data) - 1]; for them [range(len(cell_ids))] is the
    list of cell ids and line 91 keeps every entry. *)
Lemma unnumbered_entries_all_selected (first : entry) (rest : list entry) :
  first !! "cell_num" = None →
  let data := assign_cell_nums (first :: rest) in
  cell_registry (first :: rest) = Ok data ∧
  collect_cell_ids data = Ok (range (length data)) ∧
  entries_of_cells (range (length data)) data = data.
Proof.
  intros Hfirst data. split_and!.
  - by apply cell_registry_unlabelled.
  - unfold data. rewrite collect_cell_ids_assigned.
    by rewrite assign_cell_nums_length.
  - unfold data. rewrite assign_cell_nums_length.
    by apply (entries_of_cells_all _ _ _ (cell_nums_assigned (first :: rest))).
Qed.

(** ** Running the script *)

Section Run.

Context `{Collaborators NP CMT model}.

Local Abbreviation M := (M NP CMT model).

Local Abbreviation only_rng := (only_rng (NP := NP) (CMT := CMT) (model := model)).

Implicit Types (w : world NP CMT model) (g : generators NP CMT) (args : Namespace.t).

Lemma bind_Ok {A B : Type} (m : M A) (f : A → M B) w a w' :
  m w = (Ok a, w') → (m ≫= f) w = f a w'.
Proof. intros Hm. unfold mbind, M_bind. by rewrite Hm. Qed.

Lemma bind_Raise {A B : Type} (m : M A) (f : A → M B) w e w' :
  m w = (Raise e, w') → (m ≫= f) w = (Raise e, w').
Proof. intros Hm. unfold mbind, M_bind. by rewrite Hm. Qed.

Lemma set_rng_rng w : set_rng (rng w) w = w.
Proof. by destruct w. Qed.

Lemma set_rng_set_rng g g' w : set_rng g (set_rng g' w) = set_rng g w.
Proof. done. Qed.

Lemma only_rng_ret {A : Type} (a : A) : only_rng (mret a : M A).
Proof. intros w. exists (rng w). by rewrite set_rng_rng. Qed.

Lemma only_rng_lift {A : Type} (r : result A) : only_rng (lift r : M A).
Proof. intros w. exists (rng w). by rewrite set_rng_rng. Qed.

Lemma only_rng_call {A : Type} (c : collaborator NP CMT A) : only_rng (call c).
Proof. intros w. unfold call. destruct (c (rng w)) as [r g]. by exists g. Qed.

Lemma only_rng_bind {A B : Type} (m : M A) (f : A → M B) :
  only_rng m → (∀ a, only_rng (f a)) → only_rng (m ≫= f).
Proof.
  intros Hm Hf w. unfold mbind, M_bind.
  destruct (Hm w) as [g Hg]. destruct (m w) as [[a|e] w']; simpl in Hg; subst w'.
  - destruct (Hf a (set_rng g w)) as [g' Hg']. exists g'. by rewrite Hg'.
  - by exists g.
Qed.

Lemma seed_rng_eq args w : seed_rng args w = (Ok (), set_rng (seeded args (rng w)) w).
Proof.
  unfold seed_rng, seeded. destruct (decide (-1 < Namespace.seed args)); [done|].
  by rewrite set_rng_rng.
Qed.

Lemma only_rng_load_all filepaths data : only_rng (load_all filepaths data).
Proof.
  revert data. induction filepaths as [|filepath rest IH]; intros data; simpl.
  - apply only_rng_ret.
  - apply only_rng_bind; [apply only_rng_call|]. intros loaded. apply IH.
Qed.

Lemma only_rng_aggregate args : only_rng (aggregate args).
Proof.
  unfold aggregate. apply only_rng_bind; [apply only_rng_load_all|].
  intros data. destruct (decide _); [apply only_rng_call|apply only_rng_ret].
Qed.

Lemma only_rng_pick_training_cells args cell_ids :
  only_rng (pick_training_cells args cell_ids).
Proof.
  unfold pick_training_cells.
  destruct (decide _); [apply only_rng_call|apply only_rng_ret].
Qed.

(** The three parts of the world a collaborator cannot reach. *)
Lemma only_rng_frame {A : Type} (m : M A) w r w' :
  only_rng m → m w = (r, w') →
  stdout w' = stdout w ∧ trained w' = trained w ∧ disk w' = disk w.
Proof.
  intros Hm Hw. destruct (Hm w) as [g Hg]. rewrite Hw in Hg.
  simpl in Hg. by subst w'.
Qed.

(** [collect] once the early return is ruled out. *)
Lemma collect_datasets args w :
  Namespace.dataset args ≠ [] →
  collect args w =
    (data ← aggregate args;
     data ← lift (cell_registry data);
     cell_ids ← lift (collect_cell_ids data);
     mret (Some (data, cell_ids))) (set_rng (seeded args (rng w)) w).
Proof.
  intros Hne. unfold collect.
  rewrite (bind_Ok _ _ _ _ _ (seed_rng_eq args w)).
  by destruct (decide (Namespace.dataset args = [])).
Qed.

Lemma collect_Some args w data cell_ids w1 :
  collect args w = (Ok (Some (data, cell_ids)), w1) →
  Namespace.dataset args ≠ [] ∧
  (∃ loaded, aggregate args (set_rng (seeded args (rng w)) w) = (Ok loaded, w1) ∧
     cell_registry loaded = Ok data) ∧
  collect_cell_ids data = Ok cell_ids.
Proof.
  intros Hc.
  destruct (decide (Namespace.dataset args = [])) as [Hnil|Hne].
  { unfold collect in Hc. rewrite (bind_Ok _ _ _ _ _ (seed_rng_eq args w)) in Hc.
    destruct (decide (Namespace.dataset args = [])); [|done].
    unfold mbind, M_bind, print in Hc. by simplify_eq/=. }
  split; [done|]. rewrite collect_datasets in Hc by done.
  unfold mbind, M_bind, lift in Hc.
  destruct (aggregate args _) as [[loaded|?] w'] eqn:Hagg; [|done].
  destruct (cell_registry loaded) as [data'|?] eqn:Hreg; [|done].
  destruct (collect_cell_ids data') as [ids|?] eqn:Hids; [|done].
  unfold mret, M_ret in Hc. simplify_eq/=. eauto.
Qed.

Lemma collect_frame args w data cell_ids w1 :
  collect args w = (Ok (Some (data, cell_ids)), w1) →
  stdout w1 = stdout w ∧ trained w1 = trained w ∧ disk w1 = disk w.
Proof.
  intros (_ & (loaded & Hagg & _) & _)%collect_Some.
  by apply (only_rng_frame _ _ _ _ (only_rng_aggregate args)) in Hagg.
Qed.

(** Every entry that reaches line 91 carries a cell number, so the
    comprehension cannot raise; it keeps the entries whose cell number
    is itself an element of [training_cells]. *)
Lemma training_entries_Ok (training_cells : list Z) (data : list entry) (nums : list Z) :
  cell_nums data = Ok nums →
  training_entries training_cells data = Ok (entries_of_cells training_cells data).
Proof.
  rewrite cell_nums_Ok. induction 1 as [|e c data nums He _ IH]; [done|].
  simpl. unfold getitem. rewrite He, IH. simpl.
  unfold entries_of_cells. rewrite filter_cons.
  assert (in_cells training_cells e ↔ c ∈ training_cells) as Hin.
  { unfold in_cells. rewrite He. apply bool_decide_spec. }
  destruct (decide (c ∈ training_cells)), (decide (in_cells training_cells e)); tauto.
Qed.

Lemma collect_cell_nums args w data cell_ids w1 :
  collect args w = (Ok (Some (data, cell_ids)), w1) →
  ∃ nums, cell_nums data = Ok nums ∧ cell_ids = unique nums.
Proof.
  intros (_ & _ & Hids)%collect_Some. unfold collect_cell_ids in Hids.
  destruct (cell_nums data) as [nums|]; simplify_eq/=. eauto.
Qed.

Lemma main_after_collect args w data cell_ids w1 :
  collect args w = (Ok (Some (data, cell_ids)), w1) →
  main args w =
    (training_cells ← pick_training_cells args cell_ids;
     models ← train_models args data training_cells;
     _ ← store args (record_of args training_cells models);
     mret 0) w1.
Proof. intros Hc. unfold main. by rewrite (bind_Ok _ _ _ _ _ Hc). Qed.

(** ** The early return *)

(** Lines 65-67, were they reached: with no dataset [main] prints
    its message and returns 0; the trainer is not called and the file
    system is left as it was. *)
Theorem no_dataset_returns_early args w :
  Namespace.dataset args = [] →
  main args w =
    (Ok 0, World (seeded args (rng w))
                 (stdout w ++ ["You have to specify at least 1 dataset."])
                 (trained w) (disk w)).
Proof.
  intros Hnil.
  assert (collect args w =
    (Ok None, World (seeded args (rng w))
                    (stdout w ++ ["You have to specify at least 1 dataset."])
                    (trained w) (disk w))) as Hc.
  { unfold collect. rewrite (bind_Ok _ _ _ _ _ (seed_rng_eq args w)).
    by destruct (decide (Namespace.dataset args = [])). }
  unfold main. by rewrite (bind_Ok _ _ _ _ _ Hc).
Qed.

(** C10: when the datasets (after preprocessing, if asked for) hold
    no entry at all, [data[0]] raises [IndexError]; by then nothing was
    printed, the trainer was not called and nothing was written. *)
Theorem empty_data_raises_IndexError args w w1 :
  Namespace.dataset args ≠ [] →
  aggregate args (seed_rng args w).2 = (Ok [], w1) →
  main args w = (Raise IndexError, w1) ∧
  stdout w1 = stdout w ∧ trained w1 = trained w ∧ disk w1 = disk w.
Proof.
  intros Hne Hagg. rewrite seed_rng_eq in Hagg. simpl in Hagg. split.
  - assert (collect args w = (Raise IndexError, w1)) as Hc.
    { rewrite collect_datasets by done. by rewrite (bind_Ok _ _ _ _ _ Hagg). }
    unfold main. by rewrite (bind_Raise _ _ _ _ _ Hc).
  - by apply (only_rng_frame _ _ _ _ (only_rng_aggregate args)) in Hagg.
Qed.

(** ** Seeding *)

Lemma collect_seeded args w g1 g2 :
  -1 < Namespace.seed args →
  collect args (set_rng g1 w) = collect args (set_rng g2 w).
Proof.
  intros Hseed. unfold collect, mbind, M_bind.
  rewrite !seed_rng_eq. unfold seeded.
  by destruct (decide (-1 < Namespace.seed args)).
Qed.

(** C4: with a seed above -1, the training cells a run picks do not
    depend on the state the generators were in when it started; nor
    does anything else the run returns or leaves behind. *)
Theorem seeded_runs_pick_same_cells args w g1 g2 :
  -1 < Namespace.seed args →
  training_subset args (set_rng g1 w) = training_subset args (set_rng g2 w) ∧
  main args (set_rng g1 w) = main args (set_rng g2 w).
Proof.
  intros Hseed. unfold training_subset, main, mbind, M_bind.
  by rewrite (collect_seeded args w g1 g2 Hseed).
Qed.

(** ** Asking for more cells than there are *)

(** C5: when more training cells are asked for than there are cell
    ids, and [random_select] rejects such a request, the request
    reaches [random_select] as it is, its [InvalidArgument] ends the
    run, no training cells are picked, the trainer is not called and
    nothing is written. *)
Theorem oversized_request_rejected args w data cell_ids w1 :
  (∀ k n g, n < k → random_select k n g = (Raise InvalidArgument, g)) →
  collect args w = (Ok (Some (data, cell_ids)), w1) →
  Z.of_nat (length cell_ids) < Namespace.num_train args →
  pick_training_cells args cell_ids w1 = (Raise InvalidArgument, w1) ∧
  training_subset args w = (Raise InvalidArgument, w1) ∧
  main args w = (Raise InvalidArgument, w1) ∧
  trained w1 = trained w ∧ disk w1 = disk w.
Proof.
  intros Hsel Hc Hlt.
  assert (pick_training_cells args cell_ids w1 = (Raise InvalidArgument, w1)) as Hpick.
  { unfold pick_training_cells.
    destruct (decide (0 < Namespace.num_train args)); [|lia].
    unfold call. rewrite Hsel by done. by rewrite set_rng_rng. }
  split_and!.
  - done.
  - unfold training_subset. rewrite (bind_Ok _ _ _ _ _ Hc).
    by rewrite (bind_Raise _ _ _ _ _ Hpick).
  - rewrite (main_after_collect _ _ _ _ _ Hc).
    by rewrite (bind_Raise _ _ _ _ _ Hpick).
  - by apply collect_frame in Hc as (_ & ? & _).
  - by apply collect_frame in Hc as (_ & _ & ?).
Qed.

(** ** The trainer call and the store *)

Lemma train_models_eq args data training_cells nums w :
  cell_nums data = Ok nums →
  train_models args data training_cells w =
    c2s_train (train_arguments args (entries_of_cells training_cells data)) w.
Proof.
  intros Hnums. unfold train_models.
  by rewrite (training_entries_Ok training_cells _ _ Hnums).
Qed.

Lemma c2s_train_world (a : TrainArgs.t) w r w' :
  c2s_train a w = (r, w') →
  stdout w' = stdout w ∧ trained w' = (trained w ++ [a])%list ∧ disk w' = disk w.
Proof.
  unfold c2s_train, call. simpl. destruct (train a (rng w)) as [r' g].
  by intros [= <- <-].
Qed.

Lemma store_eq args (experiment : gmap string (xval model)) w :
  store args experiment w =
    if writable (disk w) (target args w)
    then (Ok (), World (rng w) (stdout w) (trained w)
                       (<[target args w := File experiment]> (disk w)))
    else (Raise IOFailure, w).
Proof.
  unfold store, target, mbind, M_bind, isdir, save. simpl.
  by destruct (os.path.isdir (disk w) (Namespace.output args)).
Qed.

Lemma store_world args (experiment : gmap string (xval model)) w r w' :
  store args experiment w = (r, w') →
  stdout w' = stdout w ∧ trained w' = trained w ∧
  ∀ p, p ≠ target args w → disk w' !! p = disk w !! p.
Proof.
  rewrite store_eq. destruct (writable _ _); intros [= <- <-]; simpl; [|done].
  split_and!; [done..|]. intros p Hp. by rewrite lookup_insert_ne.
Qed.

(** C7, as the script has it: a run that reaches line 91 calls the
    trainer once, with the entries whose cell number is among the
    training cells, with the validation count, ensemble size,
    variance threshold, window length, retention flag, fine-tune flag,
    structural parameters, regularization and logging verbosity that
    were supplied, and with the training verbosity 1. *)
Theorem trainer_receives_configuration args w data cell_ids training_cells w1 w2 :
  collect args w = (Ok (Some (data, cell_ids)), w1) →
  pick_training_cells args cell_ids w1 = (Ok training_cells, w2) →
  trained (main args w).2 = (trained w ++ [ {|
    TrainArgs.data := entries_of_cells training_cells data;
    TrainArgs.num_valid := Namespace.num_valid args;
    TrainArgs.num_models := Namespace.num_models args;
    TrainArgs.var_explained := Namespace.var_explained args;
    TrainArgs.window_length := Namespace.window_length args;
    TrainArgs.keep_all := Namespace.keep_all args;
    TrainArgs.finetune := Namespace.finetune args;
    TrainArgs.model_parameters :=
      {[ "num_components" := Namespace.num_components args;
         "num_features" := Namespace.num_features args ]};
    TrainArgs.training_parameters := {[ "verbosity" := 1 ]};
    TrainArgs.regularize := Namespace.regularize args;
    TrainArgs.verbosity := Namespace.verbosity args
  |} ])%list.
Proof.
  intros Hc Hpick.
  destruct (collect_cell_nums _ _ _ _ _ Hc) as (nums & Hnums & _).
  destruct (collect_frame _ _ _ _ _ Hc) as (_ & Ht1 & _).
  destruct (only_rng_frame _ _ _ _ (only_rng_pick_training_cells args cell_ids) Hpick)
    as (_ & Ht2 & _).
  rewrite (main_after_collect _ _ _ _ _ Hc), (bind_Ok _ _ _ _ _ Hpick).
  unfold mbind at 1. unfold M_bind at 1.
  rewrite (train_models_eq _ _ _ _ _ Hnums).
  destruct (c2s_train _ w2) as [[models|e] w3] eqn:Htrain;
    apply c2s_train_world in Htrain as (_ & Ht3 & _).
  - unfold mbind, M_bind.
    destruct (store args _ w3) as [[[]|e'] w4] eqn:Hst;
      apply store_world in Hst as (_ & Ht4 & _); simpl;
      by rewrite Ht4, Ht3, Ht2, Ht1.
  - simpl. by rewrite Ht3, Ht2, Ht1.
Qed.

(** C8, as the script has it: a run that gets its models back hands
    the experiment to [save] under [model.xpck] inside the output
    when the output is a directory, at the output itself otherwise.
    If a file can be written there, the path names the experiment
    afterwards, whatever file it named before, no other path changes
    and the run returns 0; if not, the run ends with [IOFailure] and
    nothing is written. *)
Theorem experiment_written_at_target args w data cell_ids training_cells models w1 w2 w3 :
  collect args w = (Ok (Some (data, cell_ids)), w1) →
  pick_training_cells args cell_ids w1 = (Ok training_cells, w2) →
  train_models args data training_cells w2 = (Ok models, w3) →
  let experiment := record_of args training_cells models in
  let t := Namespace.output args in
  let written := if os.path.isdir (disk w) t then os.path.join t "model.xpck" else t in
  (writable (disk w) written = true →
     ∃ w4, main args w = (Ok 0, w4) ∧
       disk w4 = <[written := File experiment]> (disk w) ∧
       disk w4 !! written = Some (File experiment) ∧
       ∀ p, p ≠ written → disk w4 !! p = disk w !! p) ∧
  (writable (disk w) written = false →
     main args w = (Raise IOFailure, w3) ∧ disk w3 = disk w).
Proof.
  intros Hc Hpick Htrain experiment t written.
  destruct (collect_cell_nums _ _ _ _ _ Hc) as (nums & Hnums & _).
  destruct (collect_frame _ _ _ _ _ Hc) as (_ & _ & Hd1).
  destruct (only_rng_frame _ _ _ _ (only_rng_pick_training_cells args cell_ids) Hpick)
    as (_ & _ & Hd2).
  pose proof Htrain as Htrain'. rewrite (train_models_eq _ _ _ _ _ Hnums) in Htrain'.
  apply c2s_train_world in Htrain' as (_ & _ & Hd3).
  assert (disk w3 = disk w) as Hd by by rewrite Hd3, Hd2, Hd1.
  assert (target args w3 = written) as Htarget.
  { unfold target, written, t. by rewrite Hd. }
  assert (main args w =
            (_ ← store args experiment; mret 0) w3) as Hmain.
  { rewrite (main_after_collect _ _ _ _ _ Hc), (bind_Ok _ _ _ _ _ Hpick).
    by rewrite (bind_Ok _ _ _ _ _ Htrain). }
  rewrite Hmain. unfold mbind, M_bind. rewrite store_eq, Htarget, Hd.
  split; intros ->.
  - eexists. split_and!; [done|done|..]; simpl.
    + by rewrite lookup_insert_eq.
    + intros p Hp. by rewrite lookup_insert_ne.
  - done.
Qed.

End Run.

(** ** The script at work in the concrete setting *)

Section Runs.

Import Scenario.

Lemma draw_spec (k : nat) (pool : list Z) (s : Z) :
  (k ≤ length pool)%nat → NoDup pool →
  length (draw k pool s).1 = k ∧ NoDup (draw k pool s).1 ∧ (draw k pool s).1 ⊆ pool.
Proof.
  revert pool s. induction k as [|k IH]; intros pool s Hk Hnd; simpl.
  { split_and!; [done|constructor|by intros x ?%elem_of_nil]. }
  set (i := Z.to_nat (lcg s mod Z.of_nat (length pool))).
  assert (i < length pool)%nat as Hi.
  { pose proof (Z.mod_pos_bound (lcg s) (Z.of_nat (length pool))). lia. }
  destruct (lookup_lt_is_Some_2 pool i Hi) as [x Hx]. rewrite Hx.
  pose proof (delete_Permutation pool i x Hx) as Hperm.
  assert (NoDup (x :: delete i pool)) as [Hnotin Hnd']%NoDup_cons by by rewrite <-Hperm.
  assert (k ≤ length (delete i pool))%nat as Hk'.
  { apply Permutation_length in Hperm. simpl in Hperm. lia. }
  destruct (IH (delete i pool) (lcg s) Hk' Hnd') as (Hlen & Hxs & Hsub).
  destruct (draw k (delete i pool) (lcg s)) as [xs s'']. simpl in *.
  split_and!.
  - by rewrite Hlen.
  - constructor; [|done]. intros Hin. by apply Hnotin, Hsub.
  - intros y [->|Hy]%elem_of_cons.
    + by eapply list_elem_of_lookup_2.
    + by eapply list_elem_of_delete_inv, Hsub.
Qed.

(** The stand-in for [random_select] keeps the contract of the
    specification: [k] distinct indices below [n], or [InvalidArgument]
    and no draw. *)
Lemma random_select_indices (k n : Z) (g : generators Z Z) :
  (0 ≤ k ≤ n)%Z →
  ∃ xs s, Scenario.random_select k n g = (Ok xs, Generators (numpy_random g) s) ∧
    length xs = Z.to_nat k ∧ NoDup xs ∧ Forall (λ i, 0 ≤ i < n) xs.
Proof.
  intros Hk. unfold Scenario.random_select.
  destruct (decide (n < k)); [lia|].
  destruct (draw_spec (Z.to_nat k) (range (Z.to_nat n)) (cmt_utils g))
    as (Hlen & Hnd & Hsub).
  - unfold range. rewrite length_seqZ. lia.
  - apply NoDup_seqZ.
  - destruct (draw _ _ _) as [xs s]. simpl in *.
    exists xs, s. split_and!; [done..|].
    apply Forall_forall. intros i Hin. apply Hsub in Hin.
    unfold range in Hin. apply elem_of_seqZ in Hin. lia.
Qed.

Lemma random_select_rejects (k n : Z) (g : generators Z Z) :
  n < k → Scenario.random_select k n g = (Raise InvalidArgument, g).
Proof. intros Hlt. unfold Scenario.random_select. by destruct (decide (n < k)). Qed.

(** Without a seed the picked cells do depend on the state the
    generators start in. *)
Example unseeded_runs_may_differ :
  (training_subset (options 1 (-1) 1 on_labelled) (set_rng (Generators 0 0) boot)).1
    = Ok (Some [1]) ∧
  (training_subset (options 1 (-1) 1 on_labelled) (set_rng (Generators 0 1) boot)).1
    = Ok (Some [0]).
Proof. split; vm_compute; reflexivity. Qed.



Lemma empty_data_raises_IndexError_witness :
  main (arguments ["empty.pck"] "results") boot = (Raise IndexError, boot) ∧
  stdout boot = stdout boot ∧ trained boot = trained boot ∧ disk boot = disk boot.
Proof.
  apply (empty_data_raises_IndexError (arguments ["empty.pck"] "results") boot boot).
  - discriminate.
  - vm_compute; reflexivity.
Defined.

Lemma seeded_runs_pick_same_cells_witness :
  training_subset (options 1 0 1 on_labelled) (set_rng (Generators 0 0) boot) =
    training_subset (options 1 0 1 on_labelled) (set_rng (Generators 0 1) boot) ∧
  main (options 1 0 1 on_labelled) (set_rng (Generators 0 0) boot) =
    main (options 1 0 1 on_labelled) (set_rng (Generators 0 1) boot).
Proof.
  apply (seeded_runs_pick_same_cells (options 1 0 1 on_labelled) boot).
  reflexivity.
Defined.

Lemma oversized_request_rejected_witness :
  let w1 := set_rng (Generators 3 3) boot in
  pick_training_cells (options 3 3 1 on_labelled) [1; 2] w1 = (Raise InvalidArgument, w1) ∧
  training_subset (options 3 3 1 on_labelled) boot = (Raise InvalidArgument, w1) ∧
  main (options 3 3 1 on_labelled) boot = (Raise InvalidArgument, w1) ∧
  trained w1 = trained boot ∧ disk w1 = disk boot.
Proof.
  apply (oversized_request_rejected (options 3 3 1 on_labelled) boot labelled [1; 2]).
  - apply random_select_rejects.
  - vm_compute; reflexivity.
  - vm_compute; reflexivity.
Defined.

Lemma trainer_receives_configuration_witness :
  trained (main on_traces boot).2 =
    [ train_arguments on_traces
        [ {[ "cell_num" := 0; "calcium" := 201 ]};
          {[ "cell_num" := 1; "calcium" := 202 ]};
          {[ "cell_num" := 2; "calcium" := 203 ]} ] ].
Proof.
  apply (trainer_receives_configuration on_traces boot
           (assign_cell_nums traces) [0; 1; 2] [0; 1; 2] boot boot);
    vm_compute; reflexivity.
Defined.

(** C7, as the specification has it, fails: run with [-v 0], the trainer is
    called with the training verbosity 1, which is not the verbosity
    that was supplied. *)
Lemma training_verbosity_is_not_supplied :
  ∃ a, a ∈ trained (main (options 0 (-1) 0 on_traces) boot).2 ∧
    TrainArgs.training_parameters a !! "verbosity" = Some 1 ∧
    Namespace.verbosity (options 0 (-1) 0 on_traces) = 0 ∧
    ¬ configuration_unchanged (options 0 (-1) 0 on_traces) a.
Proof.
  exists (train_arguments (options 0 (-1) 0 on_traces) (assign_cell_nums traces)).
  split_and!.
  - replace (trained _) with
      [train_arguments (options 0 (-1) 0 on_traces) (assign_cell_nums traces)]
      by (vm_compute; reflexivity).
    apply list_elem_of_singleton. reflexivity.
  - reflexivity.
  - reflexivity.
  - intros (_ & _ & _ & _ & _ & _ & _ & _ & _ & Hv & _).
    vm_compute in Hv. discriminate.
Qed.

Lemma experiment_written_at_target_witness :
  ∃ w4, main on_traces boot = (Ok 0, w4) ∧
    disk w4 !! "results/model.xpck" =
      Some (File (record_of on_traces [0; 1; 2]
                    [131874305; 131874306; 131874307; 131874308])).
Proof.
  destruct (experiment_written_at_target on_traces boot
              (assign_cell_nums traces) [0; 1; 2] [0; 1; 2]
              [131874305; 131874306; 131874307; 131874308]
              boot boot (set_rng (Generators 131874305 11)
                           (World (rng boot) (stdout boot)
                              [train_arguments on_traces (assign_cell_nums traces)]
                              (disk boot))))
    as [Hwritten _]; [vm_compute; reflexivity..|].
  destruct (Hwritten eq_refl) as (w4 & Hmain & _ & Hfile & _).
  exists w4. split; [exact Hmain|exact Hfile].
Defined.

(** C8, as the specification has it, fails: when the output is a
    directory in which [model.xpck] is a directory itself, the run
    reaches the store and writes nothing; it ends with [IOFailure]
    and the path names the directory as before. *)
Lemma unwritable_target_is_not_written :
  let before : world Z Z Z :=
    World (rng boot) [] [] {[ "results" := Dir; "results/model.xpck" := Dir ]} in
  os.path.isdir (disk before) "results" = true ∧
  (main on_traces before).1 = Raise IOFailure ∧
  length (trained (main on_traces before).2) = 1%nat ∧
  disk (main on_traces before).2 !! "results/model.xpck" = Some Dir.
Proof. split_and!; vm_compute; reflexivity. Qed.

(** An output that names a file is written over. *)
Example existing_file_is_replaced :
  let before := World (rng boot) [] [] {[ "model.xpck" := File ∅ ]} in
  (disk (main (arguments ["traces.pck"] "model.xpck") before).2) !! "model.xpck" =
    Some (File (record_of (arguments ["traces.pck"] "model.xpck") [0; 1; 2]
                  [131874305; 131874306; 131874307; 131874308])).
Proof. vm_compute; reflexivity. Qed.

(** The check on the first entry says nothing of the later ones: when
    the first entry has a cell number and a later one has none, the
    registry changes nothing and line 82 raises [KeyError]. *)
Example later_entry_without_cell_num :
  let data : list entry := [ {[ "cell_num" := 0 ]}; {[ "calcium" := 7 ]} ] in
  cell_registry data = Ok data ∧ collect_cell_ids data = Raise KeyError.
Proof. split; vm_compute; reflexivity. Qed.

(** ** Cells that are not numbered from zero *)

(** C1: [labelled.pck] holds two traces of cell 1 and two of cell 2,
    so the cell ids are [1; 2].  With [-t 1 -S 1] the selector returns
    the index 0, which stands for cell 1; line 91 compares the cell
    numbers with the index itself and the trainer gets no entry, where
    the two traces of cell 1 were picked.  Whichever of the two
    indices the selector returns, line 91 does not keep the entries
    of the cell at that index. *)
Theorem picked_index_is_read_as_cell_number :
  (collect (options 1 1 1 on_labelled) boot).1 = Ok (Some (labelled, [1; 2])) ∧
  (training_subset (options 1 1 1 on_labelled) boot).1 = Ok (Some [0]) ∧
  TrainArgs.data <$> trained (main (options 1 1 1 on_labelled) boot).2 = [[]] ∧
  entries_of_cells (selected_cells [1; 2] [0]) labelled = take 2 labelled ∧
  Forall (λ i, training_entries [i] labelled ≠
               Ok (entries_of_cells (selected_cells [1; 2] [i]) labelled)) [0; 1].
Proof.
  split_and!; [vm_compute; reflexivity..|].
  repeat constructor; vm_compute; discriminate.
Qed.

(** C2: on the same file without [-t], the training cells are
    [range(2)], not the cell ids [1; 2], and the trainer gets the two
    traces of cell 1 only: the traces of cell 2 take no part. *)
Theorem all_cells_are_not_all_used :
  (collect on_labelled boot).1 = Ok (Some (labelled, [1; 2])) ∧
  (training_subset on_labelled boot).1 = Ok (Some [0; 1]) ∧
  TrainArgs.data <$> trained (main on_labelled boot).2 = [take 2 labelled] ∧
  length labelled = 4%nat.
Proof. split_and!; vm_compute; reflexivity. Qed.

End Runs.

(** * Further properties of the script *)

(** ** Cell numbers and cell ids (lines 76-82) *)

(** Line 82 raises exactly when some entry has no ["cell_num"], and
    then it raises [KeyError]. *)
Lemma cell_nums_Raise (data : list entry) (e : exn) :
  cell_nums data = Raise e ↔
  e = KeyError ∧ ∃ x, x ∈ data ∧ x !! "cell_num" = None.
Proof.
  unfold cell_nums. induction data as [|x data IH]; simpl.
  - split; [done|]. intros (_ & y & Hy & _). by apply elem_of_nil in Hy.
  - unfold getitem. destruct (x !! "cell_num") as [c|] eqn:Hx; simpl.
    + destruct (mapM _ data) as [cs|e'] eqn:Hm; simpl.
      * split; [done|]. intros (He & y & [->|Hy]%elem_of_cons & Hnone); [congruence|].
        assert (Ok cs = Raise e) as Habs by (apply IH; eauto). done.
      * split.
        -- intros [= <-]. destruct IH as [IH _].
           destruct (IH eq_refl) as (-> & y & Hy & Hnone).
           split; [done|]. exists y. rewrite elem_of_cons. auto.
        -- intros (-> & y & [->|Hy]%elem_of_cons & Hnone); [congruence|].
           apply IH. eauto.
    + split.
      * intros [= <-]. split; [done|]. exists x. rewrite elem_of_cons. auto.
      * by intros (-> & _).
Qed.

Lemma cell_nums_Forall (data : list entry) :
  Forall (λ x, is_Some (x !! "cell_num")) data → ∃ nums, cell_nums data = Ok nums.
Proof.
  intros Hall. destruct (cell_nums data) as [nums|e] eqn:Hn; [eauto|].
  apply cell_nums_Raise in Hn as (_ & x & Hx & Hnone).
  rewrite Forall_forall in Hall. destruct (Hall x Hx) as [c Hc]. congruence.
Qed.

(** X4: the cell ids do not depend on the order of the entries: two
    sequences with the same entries give the same cell ids, or
    [KeyError] both. *)
Theorem cell_ids_ignore_entry_order (data1 data2 : list entry) :
  data1 ≡ₚ data2 → collect_cell_ids data1 = collect_cell_ids data2.
Proof.
  intros Hperm. unfold collect_cell_ids.
  destruct (cell_nums data1) as [n1|e1] eqn:H1.
  - assert (Forall (λ x : entry, is_Some (x !! "cell_num")) data2) as Hall.
    { rewrite <-Hperm. apply Forall_forall. intros x Hx.
      destruct (x !! "cell_num") as [c|] eqn:Hc; [eauto|].
      assert (Ok n1 = Raise KeyError) as Habs; [|done].
      rewrite <-H1. apply cell_nums_Raise. eauto. }
    destruct (cell_nums_Forall _ Hall) as [n2 H2]. rewrite H2. simpl. f_equal.
    apply ascending_unique; [apply unique_sorted..|].
    intros c. rewrite !elem_of_unique. apply elem_of_asarray_ext.
    intros c'. rewrite (elem_of_cell_nums _ _ c' H1), (elem_of_cell_nums _ _ c' H2).
    by setoid_rewrite Hperm.
  - apply cell_nums_Raise in H1 as (-> & x & Hx & Hnone).
    assert (cell_nums data2 = Raise KeyError) as ->; [|done].
    apply cell_nums_Raise. split; [done|]. exists x. by rewrite <-Hperm.
Qed.

(** X5: there are never more cell ids than entries, and entries that
    passed the registry have at least one. *)
Theorem cell_ids_count (data labelled : list entry) (cell_ids : list Z) :
  cell_registry data = Ok labelled →
  collect_cell_ids labelled = Ok cell_ids →
  (1 ≤ length cell_ids ≤ length labelled)%nat.
Proof.
  intros Hreg Hids. unfold collect_cell_ids in Hids.
  destruct (cell_nums labelled) as [nums|] eqn:Hnums; simplify_eq/=.
  pose proof Hnums as Hall. apply cell_nums_Ok in Hall.
  split.
  - assert (labelled ≠ []) as Hne.
    { unfold cell_registry in Hreg. destruct data as [|first rest]; [done|].
      simpl in Hreg. destruct (decide _); by simplify_eq. }
    destruct Hall as [|x c l nums' Hx _]; [done|].
    pose proof (length_asarray (c :: nums')) as Hlen.
    destruct (asarray (c :: nums')) as [|c' arr] eqn:Harr; [done|].
    assert (c' ∈ unique (c :: nums')) as Hc.
    { rewrite elem_of_unique, Harr. apply elem_of_cons. auto. }
    destruct (unique (c :: nums')); [by apply elem_of_nil in Hc|simpl; lia].
  - rewrite (Forall2_length _ _ _ Hall), <-(length_asarray nums).
    apply submseteq_length, NoDup_submseteq.
    + apply StronglySorted_lt_NoDup, unique_sorted.
    + intros c. by rewrite elem_of_unique.
Qed.

(** ** The entries handed to the trainer (line 91) *)

Lemma training_entries_filter (training_cells : list Z) (data selected : list entry) :
  training_entries training_cells data = Ok selected →
  selected = entries_of_cells training_cells data.
Proof.
  intros Hsel. destruct (cell_nums data) as [nums|e] eqn:Hnums.
  - rewrite (training_entries_Ok _ _ _ Hnums) in Hsel. by simplify_eq.
  - exfalso. apply cell_nums_Raise in Hnums as (_ & x & Hx & Hnone).
    revert selected Hsel. induction data as [|y data IH]; intros selected Hsel.
    { by apply elem_of_nil in Hx. }
    simpl in Hsel. unfold getitem in Hsel.
    destruct (y !! "cell_num") as [c|] eqn:Hy; [|done]. simpl in Hsel.
    destruct (training_entries training_cells data) as [kept|] eqn:Hk; [|done].
    apply elem_of_cons in Hx as [->|Hx]; [congruence|]. by eapply IH.
Qed.

(** X6: the trainer's entries are entries of [data], in the order they
    have in [data]; each carries a cell number that is one of the
    training cells, and no entry of [data] that does is left out. *)
Theorem trainer_entries_sublist (training_cells : list Z) (data selected : list entry) :
  training_entries training_cells data = Ok selected →
  selected `sublist_of` data ∧
  ∀ e, e ∈ selected ↔
    e ∈ data ∧ ∃ c, e !! "cell_num" = Some c ∧ c ∈ training_cells.
Proof.
  intros ->%training_entries_filter. unfold entries_of_cells. split.
  - apply sublist_filter.
  - intros e. rewrite list_elem_of_filter. unfold in_cells.
    destruct (e !! "cell_num") as [c|].
    + rewrite bool_decide_spec. split.
      * intros [Hc He]. eauto.
      * intros (He & c' & [= <-] & Hc). auto.
    + split.
      * by intros [[] _].
      * by intros (_ & c' & ? & _).
Qed.

Lemma cell_nums_entries_of_cells (cells nums : list Z) (data : list entry) :
  cell_nums data = Ok nums →
  cell_nums (entries_of_cells cells data) = Ok (filter (.∈ cells) nums).
Proof.
  rewrite !cell_nums_Ok. unfold entries_of_cells.
  induction 1 as [|e c data nums He _ IH]; [constructor|].
  rewrite !filter_cons.
  assert (in_cells cells e ↔ c ∈ cells) as Hin.
  { unfold in_cells. rewrite He. apply bool_decide_spec. }
  destruct (decide (in_cells cells e)), (decide (c ∈ cells)); try tauto.
  by constructor.
Qed.

(** X7: when the registry numbers the entries itself, every picked
    position selects one entry: [n] distinct positions below
    [len(data)] hand [n] entries to the trainer. *)
Theorem picked_positions_count (data : list entry) (training_cells : list Z) :
  NoDup training_cells →
  Forall (λ i, 0 ≤ i < Z.of_nat (length data)) training_cells →
  ∃ selected,
    training_entries training_cells (assign_cell_nums data) = Ok selected ∧
    length selected = length training_cells.
Proof.
  intros Hnd Hrange. eexists. split.
  { apply (training_entries_Ok _ _ _ (cell_nums_assigned data)). }
  pose proof (cell_nums_entries_of_cells training_cells _ _ (cell_nums_assigned data))
    as Hn.
  apply cell_nums_Ok, Forall2_length in Hn. rewrite Hn.
  apply Permutation_length, NoDup_Permutation; [|done|].
  - apply NoDup_filter. unfold range. apply NoDup_seqZ.
  - intros i. rewrite list_elem_of_filter. unfold range. rewrite elem_of_seqZ.
    rewrite Forall_forall in Hrange. split; [tauto|].
    intros Hi. specialize (Hrange i Hi). split; [done|lia].
Qed.

(** ** Whole runs *)

Section Further.

Context `{Collaborators NP CMT model}.

Local Abbreviation M := (M NP CMT model).
Local Abbreviation only_rng := (only_rng (NP := NP) (CMT := CMT) (model := model)).

Implicit Types (w : world NP CMT model) (g : generators NP CMT) (args : Namespace.t).

Lemma load_all_from filepaths data w :
  load_all filepaths data w =
    match load_all filepaths [] w with
    | (Ok loaded, w') => (Ok (data ++ loaded)%list, w')
    | (Raise e, w') => (Raise e, w')
    end.
Proof.
  revert data w. induction filepaths as [|filepath rest IH]; intros data w; simpl.
  - unfold mret, M_ret. by rewrite app_nil_r.
  - unfold mbind, M_bind.
    destruct (call (load_data filepath) w) as [[l|e] w1]; [|done].
    rewrite (IH (data ++ l)%list), (IH ([] ++ l)%list).
    destruct (load_all rest [] w1) as [[l'|e] w2]; [|done].
    by rewrite app_assoc.
Qed.

(** X1: lines 69-71 take the files one after the other.  No file
    gives no entry; one file gives what [load_data] returns for it,
    or the exception it raises; a list of files gives the entries of
    its earlier files followed by those of its later files, and once
    a file fails to load the later ones are not read. *)
Theorem datasets_load_in_order (filepath : string) (earlier later : list string) w :
  load_all [] [] w = (Ok [], w) ∧
  load_all [filepath] [] w = call (load_data filepath) w ∧
  load_all (earlier ++ later) [] w =
    match load_all earlier [] w with
    | (Ok d1, w1) =>
        match load_all later [] w1 with
        | (Ok d2, w2) => (Ok (d1 ++ d2)%list, w2)
        | (Raise e, w2) => (Raise e, w2)
        end
    | (Raise e, w1) => (Raise e, w1)
    end.
Proof.
  split_and!.
  - done.
  - simpl. unfold mbind, M_bind.
    by destruct (call (load_data filepath) w) as [[l|e] w1].
  - clear filepath. revert w.
    induction earlier as [|filepath rest IH]; intros w; simpl.
    + unfold mret, M_ret. by destruct (load_all later [] w) as [[d2|e] w2].
    + unfold mbind, M_bind.
      destruct (call (load_data filepath) w) as [[l|e] w1]; [|done].
      rewrite (load_all_from (rest ++ later)), (load_all_from rest), IH.
      destruct (load_all rest [] w1) as [[d1|e] w2]; [|done].
      destruct (load_all later [] w2) as [[d2|e] w3]; [|done].
      by rewrite app_assoc.
Qed.

Lemma only_rng_after_seed args :
  only_rng (data ← aggregate args;
            data ← lift (cell_registry data);
            cell_ids ← lift (collect_cell_ids data);
            mret (Some (data, cell_ids))).
Proof.
  apply only_rng_bind; [apply only_rng_aggregate|]. intros data.
  apply only_rng_bind; [apply only_rng_lift|]. intros data'.
  apply only_rng_bind; [apply only_rng_lift|]. intros ids.
  apply only_rng_ret.
Qed.

Lemma collect_None args w w1 :
  collect args w = (Ok None, w1) →
  Namespace.dataset args = [] ∧
  w1 = World (seeded args (rng w))
             (stdout w ++ ["You have to specify at least 1 dataset."])
             (trained w) (disk w).
Proof.
  intros Hc. destruct (decide (Namespace.dataset args = [])) as [Hnil|Hne].
  - split; [done|]. unfold collect in Hc.
    rewrite (bind_Ok _ _ _ _ _ (seed_rng_eq args w)) in Hc.
    destruct (decide (Namespace.dataset args = [])); [|done].
    unfold mbind, M_bind, print, mret, M_ret in Hc. by simplify_eq/=.
  - exfalso. rewrite collect_datasets in Hc by done.
    unfold mbind, M_bind, lift, mret, M_ret in Hc.
    destruct (aggregate args _) as [[loaded|?] w']; [|done].
    destruct (cell_registry loaded) as [data|?]; [|done].
    by destruct (collect_cell_ids data).
Qed.

Lemma collect_Raise args w e w1 :
  collect args w = (Raise e, w1) →
  Namespace.dataset args ≠ [] ∧
  stdout w1 = stdout w ∧ trained w1 = trained w ∧ disk w1 = disk w.
Proof.
  intros Hc. destruct (decide (Namespace.dataset args = [])) as [Hnil|Hne].
  - unfold collect in Hc. rewrite (bind_Ok _ _ _ _ _ (seed_rng_eq args w)) in Hc.
    destruct (decide (Namespace.dataset args = [])); [|done].
    unfold mbind, M_bind, print, mret, M_ret in Hc. by simplify_eq/=.
  - split; [done|]. rewrite collect_datasets in Hc by done.
    by apply (only_rng_frame _ _ _ _ (only_rng_after_seed args)) in Hc.
Qed.

(** What a run can have done by the time it ends, however it ends. *)
Lemma main_outcome args w :
  ∃ out calls,
    stdout (main args w).2 = (stdout w ++ out)%list ∧
    (Namespace.dataset args ≠ [] → out = []) ∧
    trained (main args w).2 = (trained w ++ calls)%list ∧
    (length calls ≤ 1)%nat ∧
    (∀ p, p ≠ target args w → disk (main args w).2 !! p = disk w !! p) ∧
    (∀ z, (main args w).1 = Ok z → z = 0).
Proof.
  destruct (collect args w) as [[[[data cell_ids]|]|e] w1] eqn:Hc.
  - destruct (collect_frame _ _ _ _ _ Hc) as (Hs1 & Ht1 & Hd1).
    rewrite (main_after_collect _ _ _ _ _ Hc).
    destruct (pick_training_cells args cell_ids w1) as [[training_cells|e] w2] eqn:Hp;
      destruct (only_rng_frame _ _ _ _ (only_rng_pick_training_cells args cell_ids) Hp)
        as (Hs2 & Ht2 & Hd2).
    2:{ rewrite (bind_Raise _ _ _ _ _ Hp). exists [], []. simpl.
        rewrite !app_nil_r, Hs2, Ht2, Hd2, Hs1, Ht1, Hd1. split_and!; auto. done. }
    rewrite (bind_Ok _ _ _ _ _ Hp).
    destruct (collect_cell_nums _ _ _ _ _ Hc) as (nums & Hnums & _).
    destruct (train_models args data training_cells w2) as [[models|e] w3] eqn:Htrain;
      pose proof Htrain as Htrain'; rewrite (train_models_eq _ _ _ _ _ Hnums) in Htrain';
      apply c2s_train_world in Htrain' as (Hs3 & Ht3 & Hd3).
    + rewrite (bind_Ok _ _ _ _ _ Htrain). unfold mbind, M_bind.
      assert (target args w3 = target args w) as Htarget.
      { unfold target. by rewrite Hd3, Hd2, Hd1. }
      destruct (store args _ w3) as [[[]|e] w4] eqn:Hst;
        apply store_world in Hst as (Hs4 & Ht4 & Hd4);
        rewrite Htarget in Hd4; unfold mret, M_ret; simpl;
        eexists [], [_]; rewrite app_nil_r, Hs4, Hs3, Hs2, Hs1, Ht4, Ht3, Ht2, Ht1;
        split_and!; auto.
      * intros p Hp'. by rewrite Hd4, Hd3, Hd2, Hd1.
      * by intros z [= <-].
      * intros p Hp'. by rewrite Hd4, Hd3, Hd2, Hd1.
      * done.
    + rewrite (bind_Raise _ _ _ _ _ Htrain). simpl.
      eexists [], [_]. rewrite app_nil_r, Hs3, Hs2, Hs1, Ht3, Ht2, Ht1, Hd3, Hd2, Hd1.
      split_and!; auto. done.
  - apply collect_None in Hc as Hc'. destruct Hc' as (Hnil & ->).
    unfold main. rewrite (bind_Ok _ _ _ _ _ Hc). unfold mret, M_ret. simpl.
    eexists [_], []. rewrite app_nil_r. split_and!; auto; [done|].
    by intros z [= <-].
  - apply collect_Raise in Hc as Hc'. destruct Hc' as (Hne & Hs1 & Ht1 & Hd1).
    unfold main. rewrite (bind_Raise _ _ _ _ _ Hc). simpl.
    exists [], []. rewrite !app_nil_r, Hs1, Ht1, Hd1. split_and!; auto. done.
Qed.

(** C6: the parser wants one dataset at least, so no command line
    reaches lines 65-67 with an empty list.  Whatever the command
    line, the message of line 66 is not printed; a command line the
    parser rejects, as one without a dataset is, ends the process
    with the status of the parser before [main] has done anything. *)
Theorem no_dataset_message_unreachable (argv : list string) w :
  (∀ strings args,
     parse_known_args strings = inr args → Namespace.dataset args ≠ []) →
  stdout (script argv w).2 = stdout w ∧
  ∀ status,
    parse_known_args (tail argv) = inl status → script argv w = (Exit status, w).
Proof.
  intros Hparser. unfold script. split.
  - destruct (parse_known_args (tail argv)) as [status|args] eqn:Hp; [done|].
    destruct (main_outcome args w) as (out & calls & Hs & Hout & _).
    rewrite (Hout (Hparser _ _ Hp)), app_nil_r in Hs.
    by destruct (main args w) as [[z|e] w'].
  - by intros status ->.
Qed.

(** X11: a run that returns, returns 0: lines 67 and 115 are the only
    [return]s. *)
Theorem main_returns_zero args w z :
  (main args w).1 = Ok z → z = 0.
Proof.
  destruct (main_outcome args w) as (out & calls & _ & _ & _ & _ & _ & Hz).
  apply Hz.
Qed.

(** X12: however a run ends, it has called the trainer at most once, and
    the earlier calls are still on record. *)
Theorem main_trains_at_most_once args w :
  ∃ calls, trained (main args w).2 = (trained w ++ calls)%list ∧ (length calls ≤ 1)%nat.
Proof.
  destruct (main_outcome args w) as (out & calls & _ & _ & Ht & Hlen & _).
  eauto.
Qed.

(** X13: however a run ends, the only path of the file system it may have
    changed is the one lines 110-113 write to. *)
Theorem main_writes_only_target args w p :
  p ≠ (if os.path.isdir (disk w) (Namespace.output args)
       then os.path.join (Namespace.output args) "model.xpck"
       else Namespace.output args) →
  disk (main args w).2 !! p = disk w !! p.
Proof.
  destruct (main_outcome args w) as (out & calls & _ & _ & _ & _ & Hd & _).
  apply Hd.
Qed.

(** X14: given a dataset, a run prints nothing, however it ends. *)
Theorem main_prints_only_without_dataset args w :
  Namespace.dataset args ≠ [] → stdout (main args w).2 = stdout w.
Proof.
  destruct (main_outcome args w) as (out & calls & Hs & Hout & _).
  intros Hne. by rewrite Hs, (Hout Hne), app_nil_r.
Qed.

(** X2: an exception from loading or preprocessing is not caught: it ends
    the run as it is, before the trainer is called or anything is
    written. *)
Theorem loader_failure_ends_run args w e w1 :
  Namespace.dataset args ≠ [] →
  aggregate args (seed_rng args w).2 = (Raise e, w1) →
  main args w = (Raise e, w1) ∧
  stdout w1 = stdout w ∧ trained w1 = trained w ∧ disk w1 = disk w.
Proof.
  intros Hne Hagg. rewrite seed_rng_eq in Hagg. simpl in Hagg. split.
  - assert (collect args w = (Raise e, w1)) as Hc.
    { rewrite collect_datasets by done. by rewrite (bind_Raise _ _ _ _ _ Hagg). }
    unfold main. by rewrite (bind_Raise _ _ _ _ _ Hc).
  - by apply (only_rng_frame _ _ _ _ (only_rng_aggregate args)) in Hagg.
Qed.

(** X9: an exception from the trainer is not caught either: the run ends
    with it and the file system is as it was before the run; the call
    itself is on record. *)
Theorem trainer_failure_writes_nothing args w data cell_ids training_cells w1 w2 e w3 :
  collect args w = (Ok (Some (data, cell_ids)), w1) →
  pick_training_cells args cell_ids w1 = (Ok training_cells, w2) →
  train_models args data training_cells w2 = (Raise e, w3) →
  main args w = (Raise e, w3) ∧
  disk w3 = disk w ∧
  trained w3 =
    (trained w ++ [train_arguments args (entries_of_cells training_cells data)])%list.
Proof.
  intros Hc Hpick Htrain.
  destruct (collect_cell_nums _ _ _ _ _ Hc) as (nums & Hnums & _).
  destruct (collect_frame _ _ _ _ _ Hc) as (_ & Ht1 & Hd1).
  destruct (only_rng_frame _ _ _ _ (only_rng_pick_training_cells args cell_ids) Hpick)
    as (_ & Ht2 & Hd2).
  pose proof Htrain as Htrain'. rewrite (train_models_eq _ _ _ _ _ Hnums) in Htrain'.
  apply c2s_train_world in Htrain' as (_ & Ht3 & Hd3).
  split_and!.
  - rewrite (main_after_collect _ _ _ _ _ Hc), (bind_Ok _ _ _ _ _ Hpick).
    by rewrite (bind_Raise _ _ _ _ _ Htrain).
  - by rewrite Hd3, Hd2, Hd1.
  - by rewrite Ht3, Ht2, Ht1.
Qed.

(** X3: the registry trusts the first entry: when it has a cell number
    and a later entry has none, nothing is numbered and line 82 ends
    the run with [KeyError], before the trainer is called or anything
    is written. *)
Theorem missing_cell_num_raises_KeyError args w first rest w1 :
  Namespace.dataset args ≠ [] →
  aggregate args (seed_rng args w).2 = (Ok (first :: rest), w1) →
  is_Some (first !! "cell_num") →
  (∃ e, e ∈ rest ∧ e !! "cell_num" = None) →
  main args w = (Raise KeyError, w1) ∧
  stdout w1 = stdout w ∧ trained w1 = trained w ∧ disk w1 = disk w.
Proof.
  intros Hne Hagg Hfirst (e & He & Hnone).
  rewrite seed_rng_eq in Hagg. simpl in Hagg. split.
  - assert (collect args w = (Raise KeyError, w1)) as Hc.
    { rewrite collect_datasets by done. rewrite (bind_Ok _ _ _ _ _ Hagg).
      unfold mbind, M_bind, lift. rewrite cell_registry_labelled by done.
      assert (cell_nums (first :: rest) = Raise KeyError) as Hn.
      { apply cell_nums_Raise. split; [done|]. exists e. rewrite elem_of_cons. auto. }
      unfold collect_cell_ids. by rewrite Hn. }
    unfold main. by rewrite (bind_Raise _ _ _ _ _ Hc).
  - by apply (only_rng_frame _ _ _ _ (only_rng_aggregate args)) in Hagg.
Qed.

(** X8: entries that come without cell numbers and no [-t]: the trainer
    is called with every entry, entry [k] carrying [cell_num = k]. *)
Theorem unnumbered_entries_all_train args w first rest w1 :
  Namespace.dataset args ≠ [] →
  aggregate args (seed_rng args w).2 = (Ok (first :: rest), w1) →
  first !! "cell_num" = None →
  (Namespace.num_train args ≤ 0)%Z →
  trained (main args w).2 =
    (trained w ++ [train_arguments args (assign_cell_nums (first :: rest))])%list.
Proof.
  intros Hne Hagg Hfirst Hn.
  rewrite seed_rng_eq in Hagg. simpl in Hagg.
  set (data := assign_cell_nums (first :: rest)).
  destruct (unnumbered_entries_all_selected first rest Hfirst) as (Hreg & Hids & Hall).
  fold data in Hreg, Hids, Hall.
  assert (collect args w = (Ok (Some (data, range (length data))), w1)) as Hc.
  { rewrite collect_datasets by done. rewrite (bind_Ok _ _ _ _ _ Hagg).
    unfold mbind, M_bind, lift. by rewrite Hreg, Hids. }
  assert (pick_training_cells args (range (length data)) w1
            = (Ok (range (length (range (length data)))), w1)) as Hpick.
  { unfold pick_training_cells. by destruct (decide (0 < Namespace.num_train args)); [lia|]. }
  assert (length (range (length data)) = length data) as Hlen.
  { unfold range. by rewrite length_seqZ, Nat2Z.id. }
  rewrite Hlen in Hpick.
  destruct (collect_frame _ _ _ _ _ Hc) as (_ & Ht1 & _).
  rewrite (main_after_collect _ _ _ _ _ Hc), (bind_Ok _ _ _ _ _ Hpick).
  unfold mbind at 1. unfold M_bind at 1.
  rewrite (train_models_eq _ _ _ _ _ (cell_nums_assigned (first :: rest))).
  fold data. rewrite Hall.
  destruct (c2s_train _ w1) as [[models|e] w3] eqn:Htrain;
    apply c2s_train_world in Htrain as (_ & Ht3 & _).
  - unfold mbind, M_bind.
    destruct (store args _ w3) as [[[]|e'] w4] eqn:Hst;
      apply store_world in Hst as (_ & Ht4 & _); simpl;
      by rewrite Ht4, Ht3, Ht1.
  - simpl. by rewrite Ht3, Ht1.
Qed.

(** X10: a run that gets its models back and can write at its target
    leaves there the experiment that [Experiment()] made, with the
    arguments as they were parsed under ['args'], the training cells
    the selector returned under ['training_cells'] and the models the
    trainer returned under ['models']; under every other key it
    holds what it held when it was made. *)
Theorem saved_experiment_holds_run args w data cell_ids training_cells models w1 w2 w3 :
  collect args w = (Ok (Some (data, cell_ids)), w1) →
  pick_training_cells args cell_ids w1 = (Ok training_cells, w2) →
  train_models args data training_cells w2 = (Ok models, w3) →
  writable (disk w) (target args w) = true →
  ∃ experiment,
    disk (main args w).2 !! target args w = Some (File experiment) ∧
    experiment !! "args" = Some (XArgs args) ∧
    experiment !! "training_cells" = Some (XCells training_cells) ∧
    experiment !! "models" = Some (XModels models) ∧
    ∀ k, k ≠ "args" → k ≠ "training_cells" → k ≠ "models" →
      experiment !! k = Experiment !! k.
Proof.
  intros Hc Hpick Htrain Hw.
  destruct (collect_cell_nums _ _ _ _ _ Hc) as (nums & Hnums & _).
  destruct (collect_frame _ _ _ _ _ Hc) as (_ & _ & Hd1).
  destruct (only_rng_frame _ _ _ _ (only_rng_pick_training_cells args cell_ids) Hpick)
    as (_ & _ & Hd2).
  pose proof Htrain as Htrain'. rewrite (train_models_eq _ _ _ _ _ Hnums) in Htrain'.
  apply c2s_train_world in Htrain' as (_ & _ & Hd3).
  assert (disk w3 = disk w) as Hd by by rewrite Hd3, Hd2, Hd1.
  assert (target args w3 = target args w) as Htarget.
  { unfold target. by rewrite Hd. }
  exists (record_of args training_cells models). split_and!.
  - rewrite (main_after_collect _ _ _ _ _ Hc), (bind_Ok _ _ _ _ _ Hpick).
    rewrite (bind_Ok _ _ _ _ _ Htrain). unfold mbind, M_bind.
    rewrite store_eq, Htarget, Hd, Hw. simpl. by rewrite lookup_insert_eq.
  - unfold record_of. rewrite lookup_insert_ne by done.
    rewrite lookup_insert_ne by done. apply lookup_insert_eq.
  - unfold record_of. rewrite lookup_insert_ne by done. apply lookup_insert_eq.
  - unfold record_of. apply lookup_insert_eq.
  - intros k H1 H2 H3. unfold record_of. by rewrite !lookup_insert_ne.
Qed.

End Further.

(** ** The further properties in the concrete setting *)

Section FurtherRuns.

Import Scenario.

(** The collaborators of the concrete setting, with a trainer that
    fails. *)
Definition broken_trainer : Collaborators Z Z Z :=
  Build_Collaborators Z Z Z Scenario.parse_known_args ∅ (λ s, s) (λ s, s)
    Scenario.random_select Scenario.load_data Scenario.preprocess
    (λ _ g, (Raise (CollaboratorFailure "train"), g)).

(** The parser of the concrete setting never returns an empty list
    of datasets. *)
Lemma parse_known_args_dataset (strings : list string) (args : Namespace.t) :
  Scenario.parse_known_args strings = inr args → Namespace.dataset args ≠ [].
Proof.
  unfold Scenario.parse_known_args.
  destruct (reverse strings) as [|output [|dataset datasets]]; [done..|].
  intros [= <-]. simpl. rewrite reverse_cons. by destruct (reverse datasets).
Qed.

Lemma no_dataset_message_unreachable_witness :
  script ["c2s-train.py"; "results"] boot = (Exit 2, boot).
Proof.
  destruct (no_dataset_message_unreachable (H := collaborators)
              ["c2s-train.py"; "results"] boot) as [_ Hexit].
  - exact parse_known_args_dataset.
  - apply Hexit. reflexivity.
Defined.

(** A command line with a dataset and an output runs to the end. *)
Example command_line_with_dataset :
  (script ["c2s-train.py"; "traces.pck"; "results"] boot).1 = Exit 0.
Proof. vm_compute; reflexivity. Qed.

(** A directory given with a trailing slash: [os.path.join] adds no
    second one. *)
Example directory_with_trailing_slash :
  let before : world Z Z Z := World (rng boot) [] [] {[ "results/" := Dir ]} in
  target (arguments ["traces.pck"] "results/") before = "results/model.xpck" ∧
  (main (arguments ["traces.pck"] "results/") before).1 = Ok 0.
Proof. split; vm_compute; reflexivity. Qed.

Lemma cell_ids_ignore_entry_order_witness :
  collect_cell_ids (reverse labelled) = collect_cell_ids labelled.
Proof.
  apply (cell_ids_ignore_entry_order (reverse labelled) labelled).
  apply reverse_Permutation.
Defined.

Lemma cell_ids_count_witness :
  (1 ≤ length [1; 2] ≤ length labelled)%nat.
Proof.
  apply (cell_ids_count labelled labelled [1; 2]); vm_compute; reflexivity.
Defined.

Lemma trainer_entries_sublist_witness :
  take 2 labelled `sublist_of` labelled ∧
  ∀ e, e ∈ take 2 labelled ↔
    e ∈ labelled ∧ ∃ c, e !! "cell_num" = Some c ∧ c ∈ [0; 1].
Proof.
  apply (trainer_entries_sublist [0; 1] labelled (take 2 labelled)).
  vm_compute; reflexivity.
Defined.

Lemma picked_positions_count_witness :
  ∃ selected,
    training_entries [2; 0] (assign_cell_nums traces) = Ok selected ∧
    length selected = length [2; 0].
Proof.
  apply (picked_positions_count traces [2; 0]).
  - apply NoDup_cons. split; [|apply NoDup_singleton].
    rewrite list_elem_of_singleton. discriminate.
  - repeat constructor; vm_compute; congruence.
Defined.

Lemma main_returns_zero_witness :
  (main on_traces boot).1 = Ok 0 ∧ 0 = 0.
Proof.
  split; [vm_compute; reflexivity|].
  apply (main_returns_zero on_traces boot 0). vm_compute; reflexivity.
Defined.

Lemma main_writes_only_target_witness :
  disk (main on_traces boot).2 !! "results" = disk boot !! "results".
Proof.
  apply (main_writes_only_target on_traces boot "results").
  vm_compute. discriminate.
Defined.

Lemma main_prints_only_without_dataset_witness :
  stdout (main on_traces boot).2 = stdout boot.
Proof.
  apply (main_prints_only_without_dataset on_traces boot). discriminate.
Defined.

Lemma loader_failure_ends_run_witness :
  main (arguments ["traces.pck"; "missing.pck"] "results") boot
    = (Raise (CollaboratorFailure "load_data"), boot) ∧
  stdout boot = stdout boot ∧ trained boot = trained boot ∧ disk boot = disk boot.
Proof.
  apply (loader_failure_ends_run
           (arguments ["traces.pck"; "missing.pck"] "results") boot).
  - discriminate.
  - vm_compute; reflexivity.
Defined.

Lemma trainer_failure_writes_nothing_witness :
  let failed :=
    World (rng boot) [] [train_arguments on_traces (assign_cell_nums traces)]
          (disk boot) in
  main (H := broken_trainer) on_traces boot
    = (Raise (CollaboratorFailure "train"), failed) ∧
  disk failed = disk boot ∧
  trained failed =
    (trained boot ++
       [train_arguments on_traces (entries_of_cells [0; 1; 2] (assign_cell_nums traces))])%list.
Proof.
  apply (trainer_failure_writes_nothing (H := broken_trainer) on_traces boot
           (assign_cell_nums traces) [0; 1; 2] [0; 1; 2] boot boot);
    vm_compute; reflexivity.
Defined.

Lemma missing_cell_num_raises_KeyError_witness :
  main (arguments ["labelled.pck"; "traces.pck"] "results") boot
    = (Raise KeyError, boot) ∧
  stdout boot = stdout boot ∧ trained boot = trained boot ∧ disk boot = disk boot.
Proof.
  apply (missing_cell_num_raises_KeyError
           (arguments ["labelled.pck"; "traces.pck"] "results") boot
           {[ "cell_num" := 1; "calcium" := 101 ]} (drop 1 labelled ++ traces)%list).
  - discriminate.
  - vm_compute; reflexivity.
  - exists 1. vm_compute; reflexivity.
  - exists {[ "calcium" := 201 ]}. split; [|vm_compute; reflexivity].
    apply elem_of_app. right. apply elem_of_cons. by left.
Defined.

Lemma unnumbered_entries_all_train_witness :
  trained (main on_traces boot).2 =
    (trained boot ++
       [train_arguments on_traces
          (assign_cell_nums ({[ "calcium" := 201 ]} :: drop 1 traces))])%list.
Proof.
  apply (unnumbered_entries_all_train on_traces boot
           {[ "calcium" := 201 ]} (drop 1 traces) boot).
  - discriminate.
  - vm_compute; reflexivity.
  - vm_compute; reflexivity.
  - vm_compute. discriminate.
Defined.

Lemma saved_experiment_holds_run_witness :
  ∃ experiment,
    disk (main on_traces boot).2 !! target on_traces boot = Some (File experiment) ∧
    experiment !! "args" = Some (XArgs on_traces) ∧
    experiment !! "training_cells" = Some (XCells [0; 1; 2]) ∧
    experiment !! "models" =
      Some (XModels [131874305; 131874306; 131874307; 131874308]) ∧
    ∀ k, k ≠ "args" → k ≠ "training_cells" → k ≠ "models" →
      experiment !! k = (Experiment : gmap string (xval Z)) !! k.
Proof.
  apply (saved_experiment_holds_run on_traces boot
           (assign_cell_nums traces) [0; 1; 2] [0; 1; 2]
           [131874305; 131874306; 131874307; 131874308]
           boot boot (set_rng (Generators 131874305 11)
                        (World (rng boot) (stdout boot)
                           [train_arguments on_traces (assign_cell_nums traces)]
                           (disk boot))));
    vm_compute; reflexivity.
Defined.

End FurtherRuns.
